(** * SyteLine reporting application: a shallow embedding of [app.py]

    The development follows the layout of the Python module:
    the interpreter-level operations the handlers rely on (exceptions,
    truthiness, dictionary methods, [datetime.strptime] and
    [datetime.strftime] for the three formats the module uses), then
    [query_ido], [DUMMY_SALES], [sales_report] and [generic_query], and
    finally the properties of these functions.

    Conventions.
    - A Python [str] is a [string]; its characters are read as the code
      points 0..255, among which the decimal digits are exactly '0'..'9'.
    - A Python [int] is a [Z] (the components of a date, which are never
      negative, are [nat]); a Python [float] is a binary64 [float].
    - A Python [dict] with string keys is a [gmap string _].
    - A call that may raise returns an [outcome]; network traffic is
      recorded in a log of issued requests that is threaded through the
      handlers. *)

From Stdlib Require Import ZArith Ascii Floats Lia ZifyNat.
From stdpp Require Import gmap strings list fin_maps.

#[local] Open Scope nat_scope.

(** ** Exceptions and outcomes *)

Inductive exn :=
| ValueError | TypeError | AttributeError | KeyError | OverflowError
| RequestException | HTTPError | JSONDecodeError.

Inductive outcome (A : Type) :=
| Returns (a : A)
| Raises (e : exn).
Arguments Returns {A} a.
Arguments Raises {A} e.

#[global] Instance outcome_ret : MRet outcome := @Returns.
#[global] Instance outcome_bind : MBind outcome := fun A B k x =>
  match x with
  | Returns a => k a
  | Raises e => Raises e
  end.

Definition returned {A} (x : outcome A) : bool :=
  match x with Returns _ => true | Raises _ => false end.

(** ** Dates *)

Record date := mkdate { dyear : nat; dmonth : nat; dday : nat }.

Record datetime := mkdatetime {
  year : nat; month : nat; day : nat;
  hour : nat; minute : nat; second : nat; microsecond : nat }.

(** [datetime.date()] *)
Definition date_of (dt : datetime) : date :=
  mkdate (year dt) (month dt) (day dt).

(** [date.__le__]: comparison of the (year, month, day) triples. *)
Definition date_le (a b : date) : bool :=
  if dyear a <? dyear b then true
  else if dyear b <? dyear a then false
  else if dmonth a <? dmonth b then true
  else if dmonth b <? dmonth a then false
  else dday a <=? dday b.

Definition date_lt (a b : date) : bool := negb (date_le b a).

Definition is_leap (y : nat) : bool :=
  (y mod 4 =? 0) && (negb (y mod 100 =? 0) || (y mod 400 =? 0)).

Definition days_in_month (y m : nat) : nat :=
  match m with
  | 2 => if is_leap y then 29 else 28
  | 4 | 6 | 9 | 11 => 30
  | _ => 31
  end.

(** The range check of the [date] constructor (MINYEAR = 1,
    MAXYEAR = 9999). *)
#[warning="-abstract-large-number"] Definition valid_date (y m d : nat) : bool :=
  (1 <=? y) && (y <=? 9999) && (1 <=? m) && (m <=? 12) &&
  (1 <=? d) && (d <=? days_in_month y m).

(** ** Format strings

    The module uses three formats, all built from the directives
    [%Y], [%m], [%d] and the literal hyphen. *)

Inductive fmt_item := DirY | Dirm | Dird | Hyphen.

Fixpoint parse_format (fmt : string) : option (list fmt_item) :=
  match fmt with
  | EmptyString => Some []
  | String "-" rest => cons Hyphen <$> parse_format rest
  | String "%" (String "Y" rest) => cons DirY <$> parse_format rest
  | String "%" (String "m" rest) => cons Dirm <$> parse_format rest
  | String "%" (String "d" rest) => cons Dird <$> parse_format rest
  | _ => None
  end.

Definition fmt_Ymd : list fmt_item := [DirY; Hyphen; Dirm; Hyphen; Dird].
Definition fmt_Ym : list fmt_item := [DirY; Hyphen; Dirm].
Definition fmt_Y : list fmt_item := [DirY].

(** ** Characters and decimal numerals *)

Definition char_in (lo hi c : ascii) : bool :=
  (nat_of_ascii lo <=? nat_of_ascii c) && (nat_of_ascii c <=? nat_of_ascii hi).

Definition is_digit (c : ascii) : bool := char_in "0" "9" c.

Definition digit_val (c : ascii) : nat := nat_of_ascii c - 48.

Definition digit_char (n : nat) : ascii := ascii_of_nat (48 + n mod 10).

(** [int(text)] for the texts the date directives capture: optional
    leading blanks, then decimal digits. *)
Fixpoint int_digits (acc : nat) (s : string) : nat :=
  match s with
  | EmptyString => acc
  | String c rest => int_digits (10 * acc + digit_val c) rest
  end.

Fixpoint int_of_text (s : string) : nat :=
  match s with
  | String " " rest => int_of_text rest
  | _ => int_digits 0 s
  end.

Definition pad2 (n : nat) : string :=
  String (digit_char (n / 10)) (String (digit_char n) EmptyString).

Definition pad4 (n : nat) : string :=
  String (digit_char (n / 1000)) (String (digit_char (n / 100))
    (String (digit_char (n / 10)) (String (digit_char n) EmptyString))).

(** ** [datetime.strptime]

    [_strptime] turns the format into a regular expression with one
    named group per directive, matches it at the start of the input
    and takes the first match in the priority order of a backtracking
    matcher.  A matcher returns every way it can match a prefix of its
    input, best first, as pairs (matched text, remaining input). *)

Definition matcher := string -> list (string * string).

Definition chr (p : ascii -> bool) : matcher := fun s =>
  match s with
  | String c rest => if p c then [(String c EmptyString, rest)] else []
  | EmptyString => []
  end.

Definition seq_m (m1 m2 : matcher) : matcher := fun s =>
  flat_map (fun '(a, r1) =>
    map (fun '(b, r2) => (a +:+ b, r2)) (m2 r1)) (m1 s).

Definition alt_m (m1 m2 : matcher) : matcher := fun s => m1 s ++ m2 s.

Definition lit (c : ascii) : matcher := chr (Ascii.eqb c).

(** [\d] *)
Definition re_digit : matcher := chr is_digit.

(** [(?P<Y>\d\d\d\d)] *)
Definition re_Y : matcher :=
  seq_m re_digit (seq_m re_digit (seq_m re_digit re_digit)).

(** [(?P<m>1[0-2]|0[1-9]|[1-9])] *)
Definition re_m : matcher :=
  alt_m (seq_m (lit "1") (chr (char_in "0" "2")))
 (alt_m (seq_m (lit "0") (chr (char_in "1" "9")))
        (chr (char_in "1" "9"))).

(** [(?P<d>3[0-1]|[1-2]\d|0[1-9]|[1-9]| [1-9])] *)
Definition re_d : matcher :=
  alt_m (seq_m (lit "3") (chr (char_in "0" "1")))
 (alt_m (seq_m (chr (char_in "1" "2")) re_digit)
 (alt_m (seq_m (lit "0") (chr (char_in "1" "9")))
 (alt_m (chr (char_in "1" "9"))
        (seq_m (lit " ") (chr (char_in "1" "9")))))).

Definition item_matcher (it : fmt_item) : matcher :=
  match it with
  | DirY => re_Y
  | Dirm => re_m
  | Dird => re_d
  | Hyphen => lit "-"
  end.

(** The named groups of a match ([found.groupdict()]). *)
Record groups := mkgroups {
  gY : option string; gm : option string; gd : option string }.

Definition no_groups : groups := mkgroups None None None.

Definition bind_group (it : fmt_item) (txt : string) (g : groups) : groups :=
  match it with
  | DirY => mkgroups (Some txt) (gm g) (gd g)
  | Dirm => mkgroups (gY g) (Some txt) (gd g)
  | Dird => mkgroups (gY g) (gm g) (Some txt)
  | Hyphen => g
  end.

Fixpoint match_format (fmt : list fmt_item) (g : groups) (s : string)
  : list (groups * string) :=
  match fmt with
  | [] => [(g, s)]
  | it :: fmt' =>
      flat_map (fun '(txt, rest) => match_format fmt' (bind_group it txt g) rest)
               (item_matcher it s)
  end.

(** [datetime.strptime(data_string, format)] on a [str].  The defaults
    of the missing groups are those of [_strptime] (1900-01-01); the
    time of day is midnight. *)
Definition strptime (data_string : string) (fmt : list fmt_item)
  : outcome datetime :=
  match match_format fmt no_groups data_string with
  | [] => Raises ValueError
  | (g, rest) :: _ =>
      match rest with
      | String _ _ => Raises ValueError
      | EmptyString =>
          let y := default 1900 (int_of_text <$> gY g) in
          let m := default 1 (int_of_text <$> gm g) in
          let d := default 1 (int_of_text <$> gd g) in
          if valid_date y m d then Returns (mkdatetime y m d 0 0 0 0)
          else Raises ValueError
      end
  end.

(** ** [datetime.strftime]

    [strftime] hands the format to the C library.  [%m] and [%d] are
    written with two digits; [%Y] is the year as a plain decimal
    number, so that the years 1 to 999 come without leading zeros
    ("999", not "0999") and only the years from 1000 on have four
    digits.  The year of a [datetime] is at most 9999. *)

Definition year_text (y : nat) : string :=
  if y <? 10 then String (digit_char y) EmptyString
  else if y <? 100 then pad2 y
  else if y <? 1000 then String (digit_char (y / 100)) (pad2 y)
  else pad4 y.

Definition strftime_item (dt : datetime) (it : fmt_item) : string :=
  match it with
  | DirY => year_text (year dt)
  | Dirm => pad2 (month dt)
  | Dird => pad2 (day dt)
  | Hyphen => "-"
  end.

Fixpoint strftime (dt : datetime) (fmt : list fmt_item) : string :=
  match fmt with
  | [] => ""
  | it :: fmt' => strftime_item dt it +:+ strftime dt fmt'
  end.

(** ** Python values

    The values that reach the handlers: what [resp.json()] can build,
    the rows of [DUMMY_SALES], and [datetime] objects, which the
    normalisation step tests for. *)

#[warning="-register-all"] Inductive value :=
| VNone
| VBool (b : bool)
| VInt (z : Z)
| VFloat (f : float)
| VStr (s : string)
| VList (l : list value)
| VDict (d : gmap string value)
| VDatetime (dt : datetime).

(** [bool(v)] *)
Definition truthy (v : value) : bool :=
  match v with
  | VNone => false
  | VBool b => b
  | VInt z => negb (z =? 0)%Z
  | VFloat f => negb (PrimFloat.eqb f 0%float)
  | VStr s => match s with EmptyString => false | _ => true end
  | VList l => match l with [] => false | _ => true end
  | VDict d => match map_to_list d with [] => false | _ => true end
  | VDatetime _ => true
  end.

(** [a or b] *)
Definition py_or (a b : value) : value := if truthy a then a else b.

(** [isinstance(v, (datetime,))] and [isinstance(v, dict)] *)
Definition is_datetime (v : value) : bool :=
  match v with VDatetime _ => true | _ => false end.
Definition is_dict (v : value) : bool :=
  match v with VDict _ => true | _ => false end.

(** [obj.get(key, dflt)]: only dictionaries have the method. *)
Definition method_get (obj : value) (key : string) (dflt : value)
  : outcome value :=
  match obj with
  | VDict d => Returns (default dflt (d !! key))
  | _ => Raises AttributeError
  end.

(** [obj[key]] with a string key *)
Definition subscript (obj : value) (key : string) : outcome value :=
  match obj with
  | VDict d =>
      match d !! key with
      | Some v => Returns v
      | None => Raises KeyError
      end
  | _ => Raises TypeError
  end.

(** Substring test, for [key in obj] on a [str]. *)
Fixpoint is_prefix (p s : string) : bool :=
  match p, s with
  | EmptyString, _ => true
  | String a p', String b s' => Ascii.eqb a b && is_prefix p' s'
  | String _ _, EmptyString => false
  end.

Fixpoint is_substring (p s : string) : bool :=
  is_prefix p s ||
  match s with
  | EmptyString => false
  | String _ s' => is_substring p s'
  end.

(** [key in obj] with a string key *)
Definition py_contains (key : string) (obj : value) : outcome bool :=
  match obj with
  | VDict d => Returns (bool_decide (is_Some (d !! key)))
  | VStr s => Returns (is_substring key s)
  | VList l =>
      Returns (existsb (fun x =>
        match x with VStr s => String.eqb s key | _ => false end) l)
  | _ => Raises TypeError
  end.

(** [obj.pop(key)] with a string key; returns the popped value and the
    object after the call. *)
Definition method_pop (obj : value) (key : string) : outcome (value * value) :=
  match obj with
  | VDict d =>
      match d !! key with
      | Some v => Returns (v, VDict (delete key d))
      | None => Raises KeyError
      end
  | VList _ => Raises TypeError
  | _ => Raises AttributeError
  end.

(** [obj[key] = v] with a string key; returns the object after the
    assignment. *)
Definition setitem (obj : value) (key : string) (v : value) : outcome value :=
  match obj with
  | VDict d => Returns (VDict (<[key := v]> d))
  | _ => Raises TypeError
  end.

(** [float(int)]: the nearest binary64 number, ties to even;
    [OverflowError] beyond the range of binary64. *)
Definition float_of_int (z : Z) : outcome float :=
  let f := SF2Prim (binary_normalize prec emax z 0 false) in
  if PrimFloat.is_infinity f then Raises OverflowError else Returns f.

(** [datetime.strptime(v, format)] on an arbitrary value *)
Definition strptime_value (v : value) (fmt : list fmt_item) : outcome datetime :=
  match v with
  | VStr s => strptime s fmt
  | _ => Raises TypeError
  end.

(** ** Strings: [rstrip], [strip], [split], [join] *)

Definition is_empty (s : string) : bool :=
  match s with EmptyString => true | _ => false end.

Fixpoint rstrip_by (p : ascii -> bool) (s : string) : string :=
  match s with
  | EmptyString => EmptyString
  | String c rest =>
      let rest' := rstrip_by p rest in
      if p c && is_empty rest' then EmptyString else String c rest'
  end.

Fixpoint lstrip_by (p : ascii -> bool) (s : string) : string :=
  match s with
  | EmptyString => EmptyString
  | String c rest => if p c then lstrip_by p rest else s
  end.

(** [str.isspace] on the code points 0..255 *)
Definition is_space (c : ascii) : bool :=
  let n := nat_of_ascii c in
  ((9 <=? n) && (n <=? 13)) || ((28 <=? n) && (n <=? 32)) ||
  (n =? 133) || (n =? 160).

(** [s.rstrip('/')] and [s.strip()] *)
Definition rstrip_slash (s : string) : string := rstrip_by (Ascii.eqb "/") s.
Definition strip (s : string) : string := lstrip_by is_space (rstrip_by is_space s).

(** [s.split(",")] *)
Fixpoint split_comma (s : string) : list string :=
  match s with
  | EmptyString => [EmptyString]
  | String c rest =>
      if Ascii.eqb c "," then EmptyString :: split_comma rest
      else match split_comma rest with
           | h :: t => String c h :: t
           | [] => [String c EmptyString]
           end
  end.

(** [",".join(l)] *)
Definition join_comma (l : list string) : string := String.concat "," l.

(** ** The network and the process environment *)

(** The arguments of [requests.get(url, params=, headers=, timeout=)]. *)
Record request := mkrequest {
  req_url : string;
  req_params : list (string * value);
  req_headers : list (string * string);
  req_timeout : nat }.

(** A response: its status code and its body decoded as JSON, [None]
    when the body is not JSON. *)
Record response := mkresponse {
  status_code : nat;
  json_body : option value }.

(** [resp.raise_for_status()] *)
Definition raise_for_status (resp : response) : outcome unit :=
  if (400 <=? status_code resp) && (status_code resp <? 600)
  then Raises HTTPError else Returns tt.

(** [resp.json()] *)
Definition json (resp : response) : outcome value :=
  match json_body resp with
  | Some v => Returns v
  | None => Raises JSONDecodeError
  end.

(** What the process reads from outside: the three configuration
    variables ([os.getenv] gives [None] for an unset one), the remote
    server as seen through [requests.get], and [float] on a [str]. *)
Record environment := mkenv {
  BASE_URL : option string;
  MONGOOSE_CONFIG : option string;
  API_TOKEN : option string;
  requests_get : request -> outcome response;
  float_of_str : string -> option float }.

(** Computations that may issue requests: the log of the requests sent
    so far is threaded through. *)
Definition net_log := list request.
Definition io (A : Type) : Type := net_log -> outcome A * net_log.

#[global] Instance io_ret : MRet io := fun A a log => (Returns a, log).
#[global] Instance io_bind : MBind io := fun A B k x log =>
  match x log with
  | (Returns a, log') => k a log'
  | (Raises e, log') => (Raises e, log')
  end.

Definition lift {A} (x : outcome A) : io A := fun log => (x, log).

(** [try: body except Exception: handler] *)
Definition try_except {A} (body : io A) (handler : io A) : io A := fun log =>
  match body log with
  | (Returns a, log') => (Returns a, log')
  | (Raises _, log') => handler log'
  end.

(** Truthiness of an optional string ([None] and [""] are false). *)
Definition opt_truthy (s : option string) : bool :=
  match s with
  | Some (String _ _) => true
  | _ => false
  end.

Definition opt_list_truthy {A} (l : option (list A)) : bool :=
  match l with
  | Some (_ :: _) => true
  | _ => false
  end.

Section App.

Variable env : environment.

Definition http_get (req : request) : io response := fun log =>
  (requests_get env req, log ++ [req]).

(** ** [query_ido] *)

Definition query_ido (ido : string) (properties : option (list string))
    (filter_expr order_by : option string) (record_cap : Z) : io (list value) :=
  if negb (opt_truthy (BASE_URL env) && opt_truthy (MONGOOSE_CONFIG env)
           && opt_truthy (API_TOKEN env))
  then mret []
  else
    let url := rstrip_slash (default "" (BASE_URL env)) +:+ "/ido/" +:+ ido +:+ "/load" in
    let params : list (string * value) := [] in
    let params :=
      if opt_list_truthy properties
      then params ++ [("properties", VStr (join_comma (default [] properties)))]
      else params in
    let params :=
      if opt_truthy filter_expr
      then params ++ [("filter", VStr (default "" filter_expr))] else params in
    let params :=
      if opt_truthy order_by
      then params ++ [("orderBy", VStr (default "" order_by))] else params in
    let params := params ++ [("recordCap", VInt record_cap)] in
    let headers :=
      [("Authorization", "Mongoose " +:+ default "" (API_TOKEN env));
       ("X-Infor-MongooseConfig", default "" (MONGOOSE_CONFIG env))] in
    try_except
      (resp ← http_get (mkrequest url params headers 30);
       _ ← lift (raise_for_status resp);
       data ← lift (json resp);
       got ← lift (method_get data "items" VNone);
       let items := py_or got data in
       match items with
       | VList l => mret l
       | _ => mret []
       end)
      (mret []).

(** ** [DUMMY_SALES] *)

Definition dummy_row (trans_date type : string) (amount : float)
    (cust_num item : string) : value :=
  VDict {[ "TransDate" := VStr trans_date; "Type" := VStr type;
           "Amount" := VFloat amount; "CustNum" := VStr cust_num;
           "Item" := VStr item ]}.

Definition DUMMY_SALES : list value :=
  [ dummy_row "2026-01-01" "Product" 1200.0 "C0001" "A100";
    dummy_row "2026-01-01" "Service" 250.0 "C0002" "SV01";
    dummy_row "2026-01-02" "Freight" 75.0 "C0003" "FR01";
    dummy_row "2026-01-02" "Misc" 50.0 "C0001" "MISC";
    dummy_row "2026-01-05" "Product" 800.0 "C0002" "A200";
    dummy_row "2026-02-01" "Service" 300.0 "C0003" "SV02" ].

(** ** Template responses and [index] *)

(** What a handler hands to the template: its name and the context
    dictionary (the [request] entry is left out). *)
Inductive ctxval :=
| CNone
| CSummary (s : gmap string float)
| CItems (l : list value)
| CStr (s : string).

Record template_response := mkresp {
  template : string;
  context : gmap string ctxval }.

Definition index : io template_response := mret (mkresp "index.html" ∅).

(** ** [sales_report] *)

(** The list comprehension over the fallback rows:
    [[row for row in records if start_dt <= strptime(row["TransDate"]).date() <= end_dt]] *)
Fixpoint filter_by_range (start_dt end_dt : date) (rows : list value)
  : outcome (list value) :=
  match rows with
  | [] => Returns []
  | row :: rest =>
      v ← subscript row "TransDate";
      dt ← strptime_value v fmt_Ymd;
      let keep := date_le start_dt (date_of dt) && date_le (date_of dt) end_dt in
      rest' ← filter_by_range start_dt end_dt rest;
      mret (if keep then row :: rest' else rest')
  end.

(** The body of the normalisation loop, on one row object: the state
    of the object after the body has run. *)
Definition normalize_row (row : value) : outcome value :=
  has ← py_contains "InvoiceDate" row;
  row ← (if has : bool
         then '(v, row) ← method_pop row "InvoiceDate"; setitem row "TransDate" v
         else mret row);
  td ← method_get row "TransDate" VNone;
  match td with
  | VDatetime dt => setitem row "TransDate" (VStr (strftime dt fmt_Ymd))
  | _ => mret row
  end.

(** [for row in records: ...] mutates the row objects where they are:
    the list is the store of the row objects, and iteration [i] of the
    loop replaces the state of object [i]. *)
Definition normalize_at (store : list value) (i : nat) : outcome (list value) :=
  match store !! i with
  | Some row => row' ← normalize_row row; mret (<[i := row']> store)
  | None => mret store
  end.

Fixpoint for_each {S A} (body : S -> A -> outcome S) (s : S) (l : list A)
  : outcome S :=
  match l with
  | [] => Returns s
  | a :: l' => s' ← body s a; for_each body s' l'
  end.

Definition normalize_records (records : list value) : outcome (list value) :=
  for_each normalize_at records (seq 0 (length records)).

(** [float(v)] *)
Definition py_float (v : value) : outcome float :=
  match v with
  | VFloat f => Returns f
  | VInt z => float_of_int z
  | VBool b => Returns (if b then 1.0 else 0.0)%float
  | VStr s =>
      match float_of_str env s with
      | Some f => Returns f
      | None => Raises ValueError
      end
  | _ => Raises TypeError
  end.

Definition group_key (group_by : string) (dt : datetime) : string :=
  if String.eqb group_by "day" then strftime dt fmt_Ymd
  else if String.eqb group_by "month" then strftime dt fmt_Ym
  else strftime dt fmt_Y.

(** The body of the grouping loop. *)
Definition group_step (group_by : string) (summary : gmap string float)
    (row : value) : outcome (gmap string float) :=
  match (v ← subscript row "TransDate"; strptime_value v fmt_Ymd) with
  | Raises _ => Returns summary
  | Returns dt =>
      let key := group_key group_by dt in
      amount ← method_get row "Amount" (VInt 0);
      x ← py_float amount;
      mret (<[key := (default 0.0 (summary !! key) + x)%float]> summary)
  end.

Definition group_records (group_by : string) (rows : list value)
  : outcome (gmap string float) :=
  for_each (group_step group_by) ∅ rows.

Definition error_response : template_response :=
  mkresp "results.html"
    {[ "sales_summary" := CSummary ∅;
       "error" := CStr "Invalid date format. Please use YYYY-MM-DD." ]}.

Definition report_response (summary : gmap string float) : template_response :=
  mkresp "results.html"
    {[ "sales_summary" := CSummary summary; "items" := CNone; "error" := CNone ]}.

Definition parse_range (start_date end_date : string) : outcome (date * date) :=
  start ← strptime start_date fmt_Ymd;
  stop ← strptime end_date fmt_Ymd;
  mret (date_of start, date_of stop).

Definition sales_report (start_date end_date group_by : string)
  : io template_response :=
  match parse_range start_date end_date with
  | Raises ValueError => mret error_response
  | Raises e => lift (Raises e)
  | Returns (start_dt, end_dt) =>
      let ido_name := "SLPostedInvoices" in
      let properties := ["InvoiceDate"; "Type"; "Amount"; "CustNum"] in
      let filter_expr :=
        "InvoiceDate>='" +:+ start_date +:+ "' AND InvoiceDate<='" +:+ end_date +:+ "'" in
      records ← query_ido ido_name (Some properties) (Some filter_expr) None 0;
      records ← lift (match records with
                      | [] => filter_by_range start_dt end_dt DUMMY_SALES
                      | _ :: _ => normalize_records records
                      end);
      summary ← lift (group_records group_by records);
      mret (report_response summary)
  end.

(** ** [generic_query] *)

Definition query_response (results : list value) : template_response :=
  mkresp "results.html"
    {[ "sales_summary" := CNone; "items" := CItems results; "error" := CNone ]}.

Definition generic_query (ido properties filter_expr order_by : string)
  : io template_response :=
  let prop_list :=
    strip <$> filter (fun p => is_empty (strip p) = false) (split_comma properties) in
  let filter_val := if is_empty filter_expr then None else Some filter_expr in
  let order_val := if is_empty order_by then None else Some order_by in
  results ← query_ido ido (match prop_list with [] => None | _ => Some prop_list end)
                      filter_val order_val 0;
  mret (query_response results).

End App.

(** ** Vocabulary of the specifications *)

(** The guard of [query_ido]: the three configuration values are
    there and none is the empty string. *)
Definition configured (env : environment) : bool :=
  opt_truthy (BASE_URL env) && opt_truthy (MONGOOSE_CONFIG env)
  && opt_truthy (API_TOKEN env).

(** The environment [env] with a server that answers every request
    with [reply]. *)
Definition answering (env : environment) (reply : outcome response)
  : environment :=
  mkenv (BASE_URL env) (MONGOOSE_CONFIG env) (API_TOKEN env)
        (fun _ => reply) (float_of_str env).

(** A successful answer whose body decodes to [v]. *)
Definition ok_json (v : value) : outcome response :=
  Returns (mkresponse 200 (Some v)).

(** The request [query_ido] sends. *)
Definition ido_request (env : environment) (ido : string)
    (properties : option (list string)) (filter_expr order_by : option string)
    (record_cap : Z) : request :=
  mkrequest
    (rstrip_slash (default "" (BASE_URL env)) +:+ "/ido/" +:+ ido +:+ "/load")
    ((if opt_list_truthy properties
      then [("properties", VStr (join_comma (default [] properties)))] else []) ++
     (if opt_truthy filter_expr
      then [("filter", VStr (default "" filter_expr))] else []) ++
     (if opt_truthy order_by
      then [("orderBy", VStr (default "" order_by))] else []) ++
     [("recordCap", VInt record_cap)])
    [("Authorization", "Mongoose " +:+ default "" (API_TOKEN env));
     ("X-Infor-MongooseConfig", default "" (MONGOOSE_CONFIG env))]
    30.

(** What [query_ido] makes of a decoded body. *)
Definition items_of (data : value) : list value :=
  match data with
  | VDict d =>
      match py_or (default VNone (d !! "items")) data with
      | VList l => l
      | _ => []
      end
  | _ => []
  end.

(** What [query_ido] returns for an answer of the server, or for the
    failure of the request. *)
Definition records_of (reply : outcome response) : list value :=
  match reply with
  | Returns resp =>
      if returned (raise_for_status resp)
      then match json_body resp with
           | Some data => items_of data
           | None => []
           end
      else []
  | Raises _ => []
  end.

(** The filter expression and the properties [sales_report] asks for. *)
Definition report_query (start_date end_date : string) : option string :=
  Some ("InvoiceDate>='" +:+ start_date +:+ "' AND InvoiceDate<='" +:+ end_date +:+ "'").

Definition report_properties : option (list string) :=
  Some ["InvoiceDate"; "Type"; "Amount"; "CustNum"].

(** The remote call made by [sales_report]. *)
Definition report_fetch (env : environment) (start_date end_date : string)
  : io (list value) :=
  query_ido env "SLPostedInvoices" report_properties
            (report_query start_date end_date) None 0.

(** The end of [sales_report]: the page for a summary, or the
    exception that grouping raised. *)
Definition respond (summary : outcome (gmap string float)) (log : net_log)
  : outcome template_response * net_log :=
  match summary with
  | Returns s => (Returns (report_response s), log)
  | Raises e => (Raises e, log)
  end.

(** The date a row carries, as both loops of [sales_report] read it. *)
Definition row_date (row : value) : outcome datetime :=
  v ← subscript row "TransDate"; strptime_value v fmt_Ymd.

(** [v] as an ISO date string when it is a [datetime], [v] otherwise. *)
Definition iso_value (v : value) : value :=
  match v with
  | VDatetime dt => VStr (strftime dt fmt_Ymd)
  | _ => v
  end.

(** The date a remote record carries: under [InvoiceDate] when the key
    is there, under [TransDate] otherwise. *)
Definition date_field (d : gmap string value) : option value :=
  match d !! "InvoiceDate" with
  | Some v => Some v
  | None => d !! "TransDate"
  end.

(** [d'] is [d] with the remote date field renamed to the canonical
    one and ISO-formatted, and nothing else changed. *)
Definition renamed (d d' : gmap string value) : Prop :=
  d' !! "InvoiceDate" = None /\
  d' !! "TransDate" = iso_value <$> date_field d /\
  forall k, k <> "InvoiceDate" -> k <> "TransDate" -> d' !! k = d !! k.

(** The dictionary the loop body leaves in place of [d]. *)
Definition rename_date (d : gmap string value) : gmap string value :=
  match d !! "InvoiceDate" with
  | Some v => <["TransDate" := iso_value v]> (delete "InvoiceDate" d)
  | None =>
      match d !! "TransDate" with
      | Some (VDatetime dt) => <["TransDate" := VStr (strftime dt fmt_Ymd)]> d
      | _ => d
      end
  end.

(** [f] on every element in turn, stopping at the first exception. *)
Fixpoint map_outcome {A B} (f : A -> outcome B) (l : list A) : outcome (list B) :=
  match l with
  | [] => Returns []
  | a :: l' => b ← f a; bs ← map_outcome f l'; mret (b :: bs)
  end.

(** [row'] is the record [row] after normalisation. *)
Definition normalized (row row' : value) : Prop :=
  exists d d', row = VDict d /\ row' = VDict d' /\ renamed d d'.

(** The texts the date directives capture. *)
Definition one_digit (t : string) : Prop :=
  exists c, is_digit c = true /\ t = String c EmptyString.
Definition two_digits (t : string) : Prop :=
  exists c1 c2, is_digit c1 = true /\ is_digit c2 = true /\
                t = String c1 (String c2 EmptyString).
Definition blank_digit (t : string) : Prop :=
  exists c, is_digit c = true /\ t = String " " (String c EmptyString).
Definition four_digits (t : string) : Prop :=
  exists c1 c2 c3 c4,
    is_digit c1 = true /\ is_digit c2 = true /\
    is_digit c3 = true /\ is_digit c4 = true /\
    t = String c1 (String c2 (String c3 (String c4 EmptyString))).



(** ** Vocabulary of the further properties *)

(** [env] with another base URL. *)
Definition with_base_url (env : environment) (base : string) : environment :=
  mkenv (Some base) (MONGOOSE_CONFIG env) (API_TOKEN env)
        (requests_get env) (float_of_str env).

(** The status codes [raise_for_status] raises on. *)
Definition error_status (code : nat) : Prop := 400 <= code /\ code < 600.

(** The amount of a row as the grouping loop reads it:
    [float(row.get("Amount", 0))]. *)
Definition row_amount (env : environment) (row : value) : outcome float :=
  amount ← method_get row "Amount" (VInt 0); py_float env amount.

(** What one row does to the bucket of key [k]: [acc] is the total so
    far, [None] while the bucket does not exist. *)
Definition bucket_add (env : environment) (group_by k : string)
    (acc : option float) (row : value) : option float :=
  match row_date row, row_amount env row with
  | Returns dt, Returns x =>
      if String.eqb (group_key group_by dt) k
      then Some (default 0.0 acc + x)%float else acc
  | _, _ => acc
  end.

(** The test of the fallback filter on one row. *)
Definition in_range (sd ed : date) (row : value) : bool :=
  match row_date row with
  | Returns dt => date_le sd (date_of dt) && date_le (date_of dt) ed
  | Raises _ => false
  end.

(** A record whose amount [float] accepts. *)
Definition amount_ok (env : environment) (row : value) : bool :=
  match row with
  | VDict d => returned (py_float env (default (VInt 0) (d !! "Amount")))
  | _ => false
  end.

(** The property names [generic_query] keeps from its form field. *)
Definition clean_properties (properties : string) : list string :=
  strip <$> filter (fun p => is_empty (strip p) = false) (split_comma properties).

Fixpoint all_digits (s : string) : bool :=
  match s with
  | EmptyString => true
  | String c rest => is_digit c && all_digits rest
  end.

Fixpoint has_comma (s : string) : bool :=
  match s with
  | EmptyString => false
  | String c rest => Ascii.eqb c "," || has_comma rest
  end.

(** * Properties *)

(** ** The embedding on examples *)

Example parse_format_Ymd : parse_format "%Y-%m-%d" = Some fmt_Ymd.
Proof. reflexivity. Qed.
Example parse_format_Ym : parse_format "%Y-%m" = Some fmt_Ym.
Proof. reflexivity. Qed.
Example parse_format_Y : parse_format "%Y" = Some fmt_Y.
Proof. reflexivity. Qed.

Example strptime_iso :
  strptime "2026-01-05" fmt_Ymd = Returns (mkdatetime 2026 1 5 0 0 0 0).
Proof. vm_compute. reflexivity. Qed.
Example strptime_short :
  strptime "2026-1-5" fmt_Ymd = Returns (mkdatetime 2026 1 5 0 0 0 0).
Proof. vm_compute. reflexivity. Qed.
Example strptime_slashes : strptime "13/40/2026" fmt_Ymd = Raises ValueError.
Proof. vm_compute. reflexivity. Qed.
Example strptime_feb30 : strptime "2026-02-30" fmt_Ymd = Raises ValueError.
Proof. vm_compute. reflexivity. Qed.
Example strptime_trailing : strptime "2026-01-011" fmt_Ymd = Raises ValueError.
Proof. vm_compute. reflexivity. Qed.
Example sales_report_by_month :
  fst (sales_report (mkenv None None None (fun _ => Raises RequestException)
                           (fun _ => None))
         "2026-01-01" "2026-02-28" "month" []) =
  Returns (report_response {[ "2026-01" := 2375.0%float; "2026-02" := 300.0%float ]}).
Proof. vm_compute. reflexivity. Qed.
Example strftime_year_999 :
  strftime (mkdatetime 999 1 5 0 0 0 0) fmt_Ymd = "999-01-05" /\
  strftime (mkdatetime 1 12 31 0 0 0 0) fmt_Y = "1".
Proof. split; vm_compute; reflexivity. Qed.
Example strftime_month :
  strftime (mkdatetime 2026 1 5 0 0 0 0) fmt_Ym = "2026-01".
Proof. vm_compute. reflexivity. Qed.

Example float_of_int_ties : float_of_int 9007199254740993 = Returns 9007199254740992%float.
Proof. vm_compute. reflexivity. Qed.
Example float_of_int_overflow : float_of_int (10 ^ 400) = Raises OverflowError.
Proof. vm_compute. reflexivity. Qed.
Example split_strip :
  filter (fun p => is_empty p = false) (strip <$> split_comma " a, b ,,c ") = ["a"; "b"; "c"].
Proof. vm_compute. reflexivity. Qed.
Example rstrip_slash_ex : rstrip_slash "https://h/api//" = "https://h/api".
Proof. vm_compute. reflexivity. Qed.

(** ** The remote data client *)

Lemma query_ido_unconfigured env ido properties filter_expr order_by cap log :
  configured env = false ->
  query_ido env ido properties filter_expr order_by cap log = (Returns [], log).
Proof.
  intros Hc. unfold query_ido. fold (configured env). rewrite Hc. reflexivity.
Qed.

(** With the configuration in place, [query_ido] sends exactly one
    request and returns what [records_of] reads in the answer. *)
Lemma query_ido_configured env ido properties filter_expr order_by cap log :
  configured env = true ->
  let req := ido_request env ido properties filter_expr order_by cap in
  query_ido env ido properties filter_expr order_by cap log =
    (Returns (records_of (requests_get env req)), log ++ [req]).
Proof.
  intros Hc req. unfold query_ido. fold (configured env). rewrite Hc.
  cbn [negb].
  set (params := _ ++ [("recordCap", _)]).
  assert (Hp : mkrequest
     (rstrip_slash (default "" (BASE_URL env)) +:+ "/ido/" +:+ ido +:+ "/load")
     params
     [("Authorization", "Mongoose " +:+ default "" (API_TOKEN env));
      ("X-Infor-MongooseConfig", default "" (MONGOOSE_CONFIG env))] 30 = req).
  { subst params req. unfold ido_request. f_equal.
    destruct (opt_list_truthy properties), (opt_truthy filter_expr),
      (opt_truthy order_by); reflexivity. }
  rewrite Hp. clear Hp params.
  unfold try_except, mbind, io_bind, http_get, lift, mret, io_ret, records_of.
  destruct (requests_get env req) as [resp|e]; [|reflexivity].
  unfold raise_for_status, json.
  destruct ((400 <=? status_code resp) && (status_code resp <? 600)); [reflexivity|].
  cbn [returned].
  destruct (json_body resp) as [data|]; [|reflexivity].
  unfold items_of.
  destruct data; try reflexivity.
  cbn [method_get].
  destruct (py_or _ _); reflexivity.
Qed.

(** [query_ido] never raises. *)
Lemma query_ido_returns env ido properties filter_expr order_by cap log :
  exists records log',
    query_ido env ido properties filter_expr order_by cap log =
      (Returns records, log').
Proof.
  destruct (configured env) eqn:Hc.
  - eexists _, _. by apply query_ido_configured.
  - eexists _, _. by apply query_ido_unconfigured.
Qed.

(** C3.  If any of the three configuration values is absent,
    [query_ido] returns the empty list at once and the log of network
    requests is left as it was: nothing is sent. *)
Theorem query_ido_missing_config env ido properties filter_expr order_by cap log :
  BASE_URL env = None \/ MONGOOSE_CONFIG env = None \/ API_TOKEN env = None ->
  query_ido env ido properties filter_expr order_by cap log = (Returns [], log).
Proof.
  intros H. apply query_ido_unconfigured. unfold configured.
  destruct H as [-> | [-> | ->]]; cbn.
  - reflexivity.
  - by rewrite andb_false_r.
  - by rewrite andb_false_r.
Qed.

Lemma query_ido_missing_config_witness :
  let env := mkenv (Some "https://erp.example/idoapi") None (Some "t0k3n")
               (fun _ => ok_json (VList [VInt 1])) (fun _ => None) in
  query_ido env "SLCustomers" (Some ["CustNum"]) None None 0 [] = (Returns [], []).
Proof.
  intros env. apply (query_ido_missing_config env). right. left. reflexivity.
Defined.

Lemma items_of_envelope (l : list value) :
  items_of (VDict {[ "items" := VList l ]}) = l.
Proof.
  unfold items_of. rewrite lookup_singleton_eq. cbn [from_option id].
  destruct l; reflexivity.
Qed.

(** C1.  The two body shapes are not read alike.  For a configured
    client and a record list [l], the body [{"items": l}] yields [l],
    while the bare list [l] yields the empty list: [data.get] raises
    on a list and the handler of [query_ido] turns that into [[]].  The
    two results differ as soon as [l] is not empty. *)
Theorem query_ido_bare_list_dropped env ido properties filter_expr order_by cap log
    (l : list value) :
  configured env = true ->
  fst (query_ido (answering env (ok_json (VDict {[ "items" := VList l ]})))
         ido properties filter_expr order_by cap log) = Returns l /\
  fst (query_ido (answering env (ok_json (VList l)))
         ido properties filter_expr order_by cap log) = Returns [].
Proof.
  intros Hc. split.
  - rewrite query_ido_configured by exact Hc. cbn [fst answering requests_get].
    unfold ok_json, records_of. cbn. f_equal. apply items_of_envelope.
  - rewrite query_ido_configured by exact Hc. reflexivity.
Qed.

Lemma query_ido_bare_list_dropped_witness :
  let env := mkenv (Some "https://erp.example/idoapi") (Some "Grp:Site")
               (Some "t0k3n") (fun _ => Raises RequestException) (fun _ => None) in
  let l := [VDict {[ "InvoiceDate" := VStr "2026-01-01" ]}] in
  fst (query_ido (answering env (ok_json (VDict {[ "items" := VList l ]})))
         "SLPostedInvoices" None None None 0 []) = Returns l /\
  fst (query_ido (answering env (ok_json (VList l)))
         "SLPostedInvoices" None None None 0 []) = Returns [].
Proof.
  intros env l. apply (query_ido_bare_list_dropped env). reflexivity.
Defined.

(** ** Date parsing *)

(** On a [str], [strptime] raises nothing but [ValueError]. *)
Lemma strptime_raises s fmt e : strptime s fmt = Raises e -> e = ValueError.
Proof.
  unfold strptime.
  destruct (match_format fmt no_groups s) as [|[g rest] ?]; [congruence|].
  destruct rest; [|congruence].
  destruct (valid_date _ _ _); congruence.
Qed.

Lemma parse_range_raises s e x : parse_range s e = Raises x -> x = ValueError.
Proof.
  unfold parse_range, mbind, outcome_bind.
  destruct (strptime s fmt_Ymd) eqn:Hs.
  - destruct (strptime e fmt_Ymd) eqn:He; [discriminate|].
    intros [= <-]. by eapply strptime_raises.
  - intros [= <-]. by eapply strptime_raises.
Qed.

Lemma parse_range_returns s e sd ed :
  parse_range s e = Returns (sd, ed) <->
  exists ds de, strptime s fmt_Ymd = Returns ds /\ strptime e fmt_Ymd = Returns de /\
                sd = date_of ds /\ ed = date_of de.
Proof.
  unfold parse_range, mbind, outcome_bind, mret, outcome_ret. split.
  - destruct (strptime s fmt_Ymd) as [ds|]; [|discriminate].
    destruct (strptime e fmt_Ymd) as [de|]; [|discriminate].
    intros [= <- <-]. by exists ds, de.
  - intros (ds & de & -> & -> & -> & ->). reflexivity.
Qed.

(** ** The report handler, case by case *)

Lemma sales_report_invalid env s e group_by log :
  returned (parse_range s e) = false ->
  sales_report env s e group_by log = (Returns error_response, log).
Proof.
  unfold sales_report. destruct (parse_range s e) as [[sd ed]|x] eqn:Hp.
  - discriminate.
  - intros _. apply parse_range_raises in Hp as ->. reflexivity.
Qed.

(** The fallback path: the remote call gave no record. *)
Lemma sales_report_fallback env s e group_by log log' sd ed :
  parse_range s e = Returns (sd, ed) ->
  report_fetch env s e log = (Returns [], log') ->
  sales_report env s e group_by log =
    respond (rows ← filter_by_range sd ed DUMMY_SALES;
             group_records env group_by rows) log'.
Proof.
  intros Hp Hq. unfold sales_report. rewrite Hp.
  unfold report_fetch, report_properties, report_query in Hq.
  unfold mbind at 1 2. unfold io_bind. rewrite Hq. unfold lift.
  destruct (filter_by_range sd ed DUMMY_SALES) as [rows|x]; [|reflexivity].
  cbn [mbind outcome_bind].
  destruct (group_records env group_by rows); reflexivity.
Qed.

(** The live path: the remote call gave at least one record. *)
Lemma sales_report_live env s e group_by log log' sd ed records :
  parse_range s e = Returns (sd, ed) ->
  report_fetch env s e log = (Returns records, log') ->
  records <> [] ->
  sales_report env s e group_by log =
    respond (rows ← normalize_records records;
             group_records env group_by rows) log'.
Proof.
  intros Hp Hq Hne. unfold sales_report. rewrite Hp.
  unfold report_fetch, report_properties, report_query in Hq.
  unfold mbind at 1 2. unfold io_bind. rewrite Hq. unfold lift.
  destruct records as [|r records]; [done|].
  destruct (normalize_records (r :: records)) as [rows|x]; [|reflexivity].
  cbn [mbind outcome_bind].
  destruct (group_records env group_by rows); reflexivity.
Qed.

(** C4.  When [start_date] or [end_date] does not parse with the
    format [%Y-%m-%d], the handler answers with the error page: the
    summary is empty, the message is the designated one, nothing is
    raised, and no request is sent (the log is unchanged), so no record
    is fetched or aggregated. *)
Theorem sales_report_invalid_date env start_date end_date group_by log :
  returned (strptime start_date fmt_Ymd) = false \/
  returned (strptime end_date fmt_Ymd) = false ->
  sales_report env start_date end_date group_by log = (Returns error_response, log) /\
  context error_response !! "sales_summary" = Some (CSummary ∅) /\
  context error_response !! "error" =
    Some (CStr "Invalid date format. Please use YYYY-MM-DD.").
Proof.
  intros H. split; [|split; reflexivity].
  apply sales_report_invalid.
  unfold parse_range, mbind, outcome_bind.
  destruct (strptime start_date fmt_Ymd); [|reflexivity].
  destruct (strptime end_date fmt_Ymd); [|reflexivity].
  destruct H; discriminate.
Qed.

Lemma sales_report_invalid_date_witness :
  let env := mkenv (Some "https://erp.example/idoapi") (Some "Grp:Site")
               (Some "t0k3n") (fun _ => ok_json (VList [])) (fun _ => None) in
  sales_report env "13/40/2026" "2026-01-02" "day" [] = (Returns error_response, []) /\
  context error_response !! "sales_summary" = Some (CSummary ∅) /\
  context error_response !! "error" =
    Some (CStr "Invalid date format. Please use YYYY-MM-DD.").
Proof.
  intros env. apply (sales_report_invalid_date env). left. vm_compute. reflexivity.
Defined.

(** ** The fallback dataset *)

Ltac order_cases :=
  repeat match goal with
  | |- context [?a <? ?b] => destruct (Nat.ltb_spec a b)
  | |- context [?a <=? ?b] => destruct (Nat.leb_spec a b)
  | H : context [?a <? ?b] |- _ => destruct (Nat.ltb_spec a b)
  | H : context [?a <=? ?b] |- _ => destruct (Nat.leb_spec a b)
  end.

Lemma date_le_trans a b c :
  date_le a b = true -> date_le b c = true -> date_le a c = true.
Proof.
  destruct a, b, c. unfold date_le. cbn [dyear dmonth dday].
  order_cases; intros; try done; lia.
Qed.

Lemma filter_by_range_cons sd ed row rest :
  filter_by_range sd ed (row :: rest) =
    (dt ← row_date row;
     rest' ← filter_by_range sd ed rest;
     mret (if date_le sd (date_of dt) && date_le (date_of dt) ed
           then row :: rest' else rest')).
Proof.
  unfold row_date. cbn [filter_by_range].
  destruct (subscript row "TransDate"); reflexivity.
Qed.

(** The comprehension raises only when some row carries no date. *)
Lemma filter_by_range_returns sd ed rows :
  Forall (fun row => returned (row_date row) = true) rows ->
  exists kept, filter_by_range sd ed rows = Returns kept /\ kept ⊆ rows.
Proof.
  induction 1 as [|row rest Hrow _ (kept & IH & Hsub)].
  - by exists [].
  - rewrite filter_by_range_cons, IH.
    destruct (row_date row) as [dt|]; [|discriminate]. cbn.
    destruct (date_le sd (date_of dt) && date_le (date_of dt) ed);
      eexists; (split; [reflexivity|]).
    + by apply list_subseteq_skip.
    + by apply list_subseteq_cons.
Qed.

(** An empty range keeps no row. *)
Lemma filter_by_range_empty sd ed rows kept :
  date_lt ed sd = true ->
  filter_by_range sd ed rows = Returns kept -> kept = [].
Proof.
  intros Hlt. revert kept. induction rows as [|row rest IH]; intros kept.
  - by intros [= <-].
  - rewrite filter_by_range_cons.
    destruct (row_date row) as [dt|]; [|discriminate]. cbn.
    destruct (filter_by_range sd ed rest) as [rest'|]; [|discriminate]. cbn.
    rewrite (IH rest' eq_refl).
    destruct (date_le sd (date_of dt)) eqn:H1;
      destruct (date_le (date_of dt) ed) eqn:H2; cbn; try by intros [= <-].
    unfold date_lt in Hlt. rewrite (date_le_trans _ _ _ H1 H2) in Hlt. discriminate.
Qed.

Lemma dummy_sales_dated :
  Forall (fun row => returned (row_date row) = true) DUMMY_SALES.
Proof. repeat constructor. Qed.

(** C5.  For a valid date range whose start lies after its end, a
    report computed from the fallback dataset has an empty summary: the
    inclusive filter keeps no row, so no bucket is created. *)
Theorem sales_report_empty_range env start_date end_date group_by log log' sd ed :
  parse_range start_date end_date = Returns (sd, ed) ->
  date_lt ed sd = true ->
  report_fetch env start_date end_date log = (Returns [], log') ->
  filter_by_range sd ed DUMMY_SALES = Returns [] /\
  sales_report env start_date end_date group_by log =
    (Returns (report_response ∅), log').
Proof.
  intros Hp Hlt Hq.
  destruct (filter_by_range_returns sd ed _ dummy_sales_dated) as (kept & Hk & _).
  pose proof (filter_by_range_empty _ _ _ _ Hlt Hk) as ->.
  split; [exact Hk|].
  rewrite (sales_report_fallback _ _ _ _ _ _ _ _ Hp Hq), Hk. reflexivity.
Qed.

Lemma sales_report_empty_range_witness :
  let env := mkenv None None None (fun _ => Raises RequestException) (fun _ => None) in
  filter_by_range (mkdate 2026 1 5) (mkdate 2026 1 1) DUMMY_SALES = Returns [] /\
  sales_report env "2026-01-05" "2026-01-01" "month" [] =
    (Returns (report_response ∅), []).
Proof.
  intros env.
  apply (sales_report_empty_range env "2026-01-05" "2026-01-01" "month" [] []);
    vm_compute; reflexivity.
Defined.

(** C7.  Against the fallback dataset, the report for 2026-01-01 to
    2026-01-02 grouped by day has exactly two buckets: "2026-01-01"
    with total 1450.0 and "2026-01-02" with total 125.0. *)
Theorem sales_report_two_days env log log' :
  report_fetch env "2026-01-01" "2026-01-02" log = (Returns [], log') ->
  sales_report env "2026-01-01" "2026-01-02" "day" log =
    (Returns (report_response
       {[ "2026-01-01" := 1450.0%float; "2026-01-02" := 125.0%float ]}), log').
Proof.
  intros Hq.
  rewrite (sales_report_fallback env _ _ _ _ _ (mkdate 2026 1 1) (mkdate 2026 1 2))
    by (vm_compute; reflexivity || exact Hq).
  vm_compute. reflexivity.
Qed.

Lemma sales_report_two_days_witness :
  let env := mkenv None None None (fun _ => Raises RequestException) (fun _ => None) in
  sales_report env "2026-01-01" "2026-01-02" "day" [] =
    (Returns (report_response
       {[ "2026-01-01" := 1450.0%float; "2026-01-02" := 125.0%float ]}), []).
Proof.
  intros env. apply (sales_report_two_days env). vm_compute. reflexivity.
Defined.

(** ** Normalisation of live records *)

Lemma rename_date_renamed d : renamed d (rename_date d).
Proof.
  unfold renamed, rename_date, date_field.
  destruct (d !! "InvoiceDate") as [v|] eqn:Hi.
  - split; [|split].
    + rewrite lookup_insert_ne by done. apply lookup_delete_eq.
    + by rewrite lookup_insert_eq.
    + intros k H1 H2. by rewrite lookup_insert_ne, lookup_delete_ne.
  - destruct (d !! "TransDate") as [v|] eqn:Ht.
    + destruct v; try (by rewrite ?Hi, ?Ht).
      split; [|split].
      * by rewrite lookup_insert_ne.
      * by rewrite lookup_insert_eq.
      * intros k H1 H2. by rewrite lookup_insert_ne.
    + by rewrite Hi, Ht.
Qed.

Lemma normalize_row_dict d :
  normalize_row (VDict d) = Returns (VDict (rename_date d)).
Proof.
  unfold normalize_row, rename_date. cbn [py_contains mbind outcome_bind].
  destruct (d !! "InvoiceDate") as [v|] eqn:Hi.
  - rewrite bool_decide_eq_true_2 by eauto.
    cbn [method_pop]. rewrite Hi.
    cbn [mbind outcome_bind setitem method_get]. rewrite lookup_insert_eq.
    cbn [from_option id].
    destruct v; try reflexivity.
    cbn [setitem iso_value]. by rewrite insert_insert_eq.
  - rewrite bool_decide_eq_false_2 by (intros [? ?]; congruence).
    cbn [mret outcome_ret mbind outcome_bind method_get].
    destruct (d !! "TransDate") as [v|]; [|reflexivity].
    destruct v; reflexivity.
Qed.

(** Only dictionaries get through the loop body. *)
Lemma normalize_row_returns row row' :
  normalize_row row = Returns row' -> exists d, row = VDict d.
Proof.
  destruct row as [| | | |s|l|d|]; try discriminate.
  - unfold normalize_row. cbn [py_contains mbind outcome_bind].
    destruct (is_substring _ _); discriminate.
  - unfold normalize_row. cbn [py_contains mbind outcome_bind].
    destruct (existsb _ _); discriminate.
  - eauto.
Qed.

(** One iteration changes the state of the object it visits and of no
    other. *)
Lemma normalize_at_middle done row todo :
  normalize_at (done ++ row :: todo) (length done) =
    (row' ← normalize_row row; mret (done ++ row' :: todo)).
Proof.
  unfold normalize_at. rewrite list_lookup_middle by done.
  destruct (normalize_row row) as [row'|]; [|reflexivity].
  cbn [mbind outcome_bind]. f_equal.
  by rewrite <- (Nat.add_0_r (length done)), insert_app_r.
Qed.

(** The loop over the store, started at position [length done]: the
    objects before that position keep their state, the others go
    through the loop body in turn, each at its own position. *)
Lemma normalize_loop done todo :
  for_each normalize_at (done ++ todo) (seq (length done) (length todo)) =
    (todo' ← map_outcome normalize_row todo; mret (done ++ todo')).
Proof.
  revert done. induction todo as [|row todo IH]; intros done.
  - cbn. by rewrite app_nil_r.
  - cbn [length seq for_each map_outcome]. rewrite normalize_at_middle.
    destruct (normalize_row row) as [row'|]; [|reflexivity].
    cbn [mbind outcome_bind mret outcome_ret].
    replace (done ++ row' :: todo) with ((done ++ [row']) ++ todo)
      by (by rewrite <- app_assoc).
    replace (S (length done)) with (length (done ++ [row']))
      by (rewrite length_app; cbn; lia).
    rewrite IH.
    destruct (map_outcome normalize_row todo); cbn; [|done].
    by rewrite <- app_assoc.
Qed.

Lemma normalize_records_map records :
  normalize_records records = map_outcome normalize_row records.
Proof.
  unfold normalize_records.
  pose proof (normalize_loop [] records) as H. cbn [app length] in H.
  rewrite H. by destruct (map_outcome normalize_row records).
Qed.

Lemma map_outcome_normalize records rows :
  map_outcome normalize_row records = Returns rows ->
  Forall2 normalized records rows.
Proof.
  revert rows. induction records as [|row records IH]; intros rows.
  - intros [= <-]. constructor.
  - cbn [map_outcome].
    destruct (normalize_row row) as [row'|] eqn:Hrow; [|discriminate].
    cbn [mbind outcome_bind].
    destruct (map_outcome normalize_row records) as [rows'|]; [|discriminate].
    intros [= <-]. constructor; [|by apply IH].
    destruct (normalize_row_returns _ _ Hrow) as [d ->].
    rewrite normalize_row_dict in Hrow. injection Hrow as <-.
    exists d, (rename_date d). auto using rename_date_renamed.
Qed.

Lemma map_outcome_dicts records :
  Forall (fun row => is_dict row = true) records ->
  exists rows, map_outcome normalize_row records = Returns rows.
Proof.
  induction 1 as [|row records Hrow _ [rows IH]].
  - by exists [].
  - destruct row; try discriminate.
    cbn [map_outcome]. rewrite normalize_row_dict, IH. by eexists.
Qed.

(** C8.  When the remote client returns a non-empty list of records
    (dictionaries), the engine does not filter on dates: every record
    goes on to grouping, in its place and whatever the requested range,
    and each differs from what was received only in that the field
    [InvoiceDate] has become [TransDate], as an ISO string when it was
    a [datetime]. *)
Theorem sales_report_live_not_refiltered
    env start_date end_date group_by log log' sd ed records :
  parse_range start_date end_date = Returns (sd, ed) ->
  report_fetch env start_date end_date log = (Returns records, log') ->
  records <> [] ->
  Forall (fun row => is_dict row = true) records ->
  exists rows,
    normalize_records records = Returns rows /\
    Forall2 normalized records rows /\
    sales_report env start_date end_date group_by log =
      respond (group_records env group_by rows) log'.
Proof.
  intros Hp Hq Hne Hd.
  destruct (map_outcome_dicts _ Hd) as [rows Hrows].
  exists rows. rewrite normalize_records_map. split; [done|].
  split; [by apply map_outcome_normalize|].
  rewrite (sales_report_live _ _ _ _ _ _ _ _ _ Hp Hq Hne).
  by rewrite normalize_records_map, Hrows.
Qed.

Lemma sales_report_live_not_refiltered_witness :
  let row := VDict {[ "InvoiceDate" := VStr "2025-07-04"; "Amount" := VFloat 10.0 ]} in
  let env := mkenv (Some "https://erp.example/idoapi") (Some "Grp:Site")
               (Some "t0k3n")
               (fun _ => ok_json (VDict {[ "items" := VList [row] ]}))
               (fun _ => None) in
  let req := ido_request env "SLPostedInvoices" report_properties
               (report_query "2026-01-01" "2026-01-02") None 0 in
  exists rows,
    normalize_records [row] = Returns rows /\
    Forall2 normalized [row] rows /\
    sales_report env "2026-01-01" "2026-01-02" "day" [] =
      respond (group_records env "day" rows) [req].
Proof.
  intros row env req.
  apply (sales_report_live_not_refiltered env "2026-01-01" "2026-01-02" "day"
           [] [req] (mkdate 2026 1 1) (mkdate 2026 1 2) [row]).
  - vm_compute. reflexivity.
  - vm_compute. reflexivity.
  - discriminate.
  - repeat constructor.
Defined.

(** C10.  The normalisation works on the record objects where they
    are: the list keeps its length, and the object at a position that
    held a dictionary with an [InvoiceDate] key holds afterwards the
    same dictionary without that key and with the value under
    [TransDate] (as an ISO string if it was a [datetime]), whatever
    [TransDate] held before; its other fields are untouched. *)
Theorem normalize_records_in_place records rows i d v :
  normalize_records records = Returns rows ->
  records !! i = Some (VDict d) ->
  d !! "InvoiceDate" = Some v ->
  length rows = length records /\
  exists d',
    rows !! i = Some (VDict d') /\
    d' !! "InvoiceDate" = None /\
    d' !! "TransDate" = Some (iso_value v) /\
    (is_datetime v = false -> d' !! "TransDate" = Some v) /\
    forall k, k <> "InvoiceDate" -> k <> "TransDate" -> d' !! k = d !! k.
Proof.
  rewrite normalize_records_map. intros Hn Hi Hv.
  apply map_outcome_normalize in Hn.
  split; [symmetry; by eapply Forall2_length|].
  destruct (Forall2_lookup_l _ _ _ _ _ Hn Hi)
    as (row' & Hrow' & d0 & d' & [= <-] & -> & Hno & Htd & Hother).
  exists d'. unfold date_field in Htd. rewrite Hv in Htd. cbn in Htd.
  repeat split; try done.
  intros Hdt. rewrite Htd. by destruct v.
Qed.

Lemma normalize_records_in_place_witness :
  let d : gmap string value :=
    {[ "InvoiceDate" := VStr "2026-01-01"; "TransDate" := VStr "stale";
       "Amount" := VInt 5 ]} in
  let d1 : gmap string value :=
    {[ "TransDate" := VStr "2026-01-01"; "Amount" := VInt 5 ]} in
  let other := VDict {[ "TransDate" := VStr "2026-01-03" ]} in
  length [other; VDict d1] = length [other; VDict d] /\
  exists d',
    [other; VDict d1] !! 1 = Some (VDict d') /\
    d' !! "InvoiceDate" = None /\
    d' !! "TransDate" = Some (iso_value (VStr "2026-01-01")) /\
    (is_datetime (VStr "2026-01-01") = false ->
       d' !! "TransDate" = Some (VStr "2026-01-01")) /\
    forall k, k <> "InvoiceDate" -> k <> "TransDate" -> d' !! k = d !! k.
Proof.
  intros d d1 other.
  apply (normalize_records_in_place [other; VDict d] [other; VDict d1] 1 d
           (VStr "2026-01-01")).
  - vm_compute. reflexivity.
  - reflexivity.
  - vm_compute. reflexivity.
Defined.

(** ** Grouping *)

Lemma for_each_app {S A} (body : S -> A -> outcome S) s l1 l2 :
  for_each body s (l1 ++ l2) = (s' ← for_each body s l1; for_each body s' l2).
Proof.
  revert s. induction l1 as [|a l1 IH]; intros s; [reflexivity|].
  cbn [app for_each]. destruct (body s a); [|reflexivity]. apply IH.
Qed.

Lemma group_step_dated env group_by summary row dt :
  row_date row = Returns dt ->
  group_step env group_by summary row =
    (amount ← method_get row "Amount" (VInt 0);
     x ← py_float env amount;
     let key := group_key group_by dt in
     mret (<[key := (default 0.0 (summary !! key) + x)%float]> summary)).
Proof. unfold row_date, group_step. by intros ->. Qed.

Lemma group_step_undated env group_by summary row :
  returned (row_date row) = false ->
  group_step env group_by summary row = Returns summary.
Proof.
  unfold row_date, group_step.
  by destruct (subscript row "TransDate" ≫= _).
Qed.

(** C9.  A record whose date field does not parse with [%Y-%m-%d] is
    passed over by the grouping loop: the loop body returns the summary
    it was given and raises nothing, and the summary of the whole
    record set is the one obtained without that record, so the other
    records are aggregated as before. *)
Theorem group_records_skips_undated env group_by before row after :
  returned (row_date row) = false ->
  (forall summary, group_step env group_by summary row = Returns summary) /\
  group_records env group_by (before ++ row :: after) =
    group_records env group_by (before ++ after).
Proof.
  intros Hrow. split; [intros; by apply group_step_undated|].
  unfold group_records. rewrite !for_each_app.
  destruct (for_each (group_step env group_by) ∅ before) as [s|]; [|reflexivity].
  cbn [mbind outcome_bind for_each]. by rewrite group_step_undated.
Qed.

Lemma group_records_skips_undated_witness :
  let env := mkenv None None None (fun _ => Raises RequestException) (fun _ => None) in
  let good (t : string) (x : float) : value :=
    VDict {[ "TransDate" := VStr t; "Amount" := VFloat x ]} in
  let bad : value := VDict {[ "TransDate" := VStr "01/02/2026"; "Amount" := VFloat 9.0 ]} in
  (forall summary, group_step env "day" summary bad = Returns summary) /\
  group_records env "day"
    ([good "2026-01-01" 1.5%float] ++ bad :: [good "2026-01-01" 2.0%float]) =
  group_records env "day"
    ([good "2026-01-01" 1.5%float] ++ [good "2026-01-01" 2.0%float]).
Proof.
  intros env good bad.
  apply (group_records_skips_undated env "day" [good "2026-01-01" 1.5%float] bad).
  vm_compute. reflexivity.
Defined.

(** *** The shape of the keys *)



Ltac Zify.zify_post_hook ::= Z.to_euclidean_division_equations.




Lemma char_in_digit lo hi c :
  is_digit lo = true -> is_digit hi = true ->
  char_in lo hi c = true -> is_digit c = true.
Proof.
  unfold is_digit, char_in.
  change (nat_of_ascii "0") with 48. change (nat_of_ascii "9") with 57.
  rewrite !andb_true_iff, !Nat.leb_le. lia.
Qed.

(** What the matchers accept. *)

Lemma chr_inv p s t r :
  In (t, r) (chr p s) ->
  exists c, p c = true /\ t = String c EmptyString /\ s = String c r.
Proof.
  destruct s as [|c s]; cbn; [done|].
  destruct (p c) eqn:Hp; cbn; [|done].
  intros [[= <- <-]|[]]. eauto.
Qed.

Lemma seq_m_inv m1 m2 s t r :
  In (t, r) (seq_m m1 m2 s) ->
  exists a r1 b, In (a, r1) (m1 s) /\ In (b, r) (m2 r1) /\ t = a +:+ b.
Proof.
  unfold seq_m. rewrite in_flat_map. intros ([a r1] & H1 & H2).
  rewrite in_map_iff in H2. destruct H2 as ([b r2] & [= <- <-] & H2).
  eauto 10.
Qed.

Lemma alt_m_inv m1 m2 s x :
  In x (alt_m m1 m2 s) -> In x (m1 s) \/ In x (m2 s).
Proof. unfold alt_m. apply in_app_or. Qed.

Lemma lit_inv c0 s t r :
  In (t, r) (lit c0 s) -> t = String c0 EmptyString /\ s = String c0 r.
Proof.
  intros (c & Hc%Ascii.eqb_eq & -> & ->)%chr_inv. by subst.
Qed.

Lemma range_inv lo hi s t r :
  is_digit lo = true -> is_digit hi = true ->
  In (t, r) (chr (char_in lo hi) s) ->
  exists c, is_digit c = true /\ t = String c EmptyString /\ s = String c r.
Proof.
  intros Hlo Hhi (c & Hc & -> & ->)%chr_inv.
  exists c. eauto using char_in_digit.
Qed.

Ltac invert_match :=
  repeat match goal with
  | H : In _ (alt_m _ _ _) |- _ => apply alt_m_inv in H as [H|H]
  | H : In _ (seq_m _ _ _) |- _ =>
      apply seq_m_inv in H as (? & ? & ? & ? & ? & ->)
  | H : In _ (lit _ _) |- _ => apply lit_inv in H as [-> ->]
  | H : In _ (re_digit _) |- _ => apply chr_inv in H as (? & ? & -> & ->)
  | H : In _ (chr (char_in _ _) _) |- _ =>
      apply range_inv in H as (? & ? & -> & ->); [|reflexivity..]
  end.

Ltac digit_side := first [eassumption | reflexivity].
Ltac shape :=
  cbn [String.append];
  first
    [ left; eexists; refine (conj _ eq_refl); digit_side
    | right; left; do 2 eexists; refine (conj _ (conj _ eq_refl)); digit_side
    | right; right; eexists; refine (conj _ eq_refl); digit_side
    | right; do 2 eexists; refine (conj _ (conj _ eq_refl)); digit_side ].

Lemma re_Y_shape s t r : In (t, r) (re_Y s) -> s = t +:+ r /\ four_digits t.
Proof.
  unfold re_Y. intros H. invert_match.
  split; [reflexivity|]. cbn [String.append].
  do 4 eexists. refine (conj _ (conj _ (conj _ (conj _ eq_refl)))); assumption.
Qed.

Lemma re_m_shape s t r :
  In (t, r) (re_m s) -> s = t +:+ r /\ (one_digit t \/ two_digits t).
Proof.
  unfold re_m. intros H. invert_match; (split; [reflexivity|]); shape.
Qed.

Lemma re_d_shape s t r :
  In (t, r) (re_d s) ->
  s = t +:+ r /\ (one_digit t \/ two_digits t \/ blank_digit t).
Proof.
  unfold re_d. intros H. invert_match; (split; [reflexivity|]); shape.
Qed.

Lemma match_format_Ymd_inv g rest s :
  In (g, rest) (match_format fmt_Ymd no_groups s) ->
  exists ty tm td,
    s = ty +:+ "-" +:+ tm +:+ "-" +:+ td +:+ rest /\
    four_digits ty /\ (one_digit tm \/ two_digits tm) /\
    (one_digit td \/ two_digits td \/ blank_digit td) /\
    g = mkgroups (Some ty) (Some tm) (Some td).
Proof.
  unfold fmt_Ymd. cbn [match_format item_matcher].
  intros ([ty r1] & Hy & H)%in_flat_map.
  apply in_flat_map in H as ([h1 r2] & Hh1 & H).
  apply in_flat_map in H as ([tm r3] & Hm & H).
  apply in_flat_map in H as ([h2 r4] & Hh2 & H).
  apply in_flat_map in H as ([td r5] & Hd & H).
  destruct H as [[= <- <-]|[]].
  apply re_Y_shape in Hy as [-> Hy]. apply lit_inv in Hh1 as [-> ->].
  apply re_m_shape in Hm as [-> Hm]. apply lit_inv in Hh2 as [-> ->].
  apply re_d_shape in Hd as [-> Hd].
  exists ty, tm, td. done.
Qed.

Lemma append_empty s : s +:+ "" = s.
Proof.
  induction s as [|c s IH]; [done|].
  change (String c (s +:+ "") = String c s). by rewrite IH.
Qed.

(** A date string that parses is a four-digit year, a month and a day
    of one or two digits, separated by hyphens. *)
Lemma strptime_Ymd_inv s dt :
  strptime s fmt_Ymd = Returns dt ->
  exists ty tm td,
    s = ty +:+ "-" +:+ tm +:+ "-" +:+ td /\
    four_digits ty /\ (one_digit tm \/ two_digits tm) /\
    (one_digit td \/ two_digits td \/ blank_digit td) /\
    dt = mkdatetime (int_of_text ty) (int_of_text tm) (int_of_text td) 0 0 0 0.
Proof.
  unfold strptime.
  destruct (match_format fmt_Ymd no_groups s) as [|[g rest] l] eqn:Hm;
    [discriminate|].
  assert (Hin : In (g, rest) (match_format fmt_Ymd no_groups s))
    by (rewrite Hm; by left).
  apply match_format_Ymd_inv in Hin as (ty & tm & td & -> & Hy & Hmo & Hd & ->).
  destruct rest; [|discriminate]. cbn [gY gm gd fmap option_fmap option_map from_option id].
  destruct (valid_date _ _ _); [|discriminate].
  intros [= <-]. exists ty, tm, td. by rewrite append_empty.
Qed.









(** Every bucket of a summary comes from a record of the set: its key
    is the key of the date of one of the records. *)
Lemma group_records_keys env group_by rows s0 s1 k :
  for_each (group_step env group_by) s0 rows = Returns s1 ->
  is_Some (s1 !! k) ->
  is_Some (s0 !! k) \/
  exists row dt, row ∈ rows /\ row_date row = Returns dt /\ k = group_key group_by dt.
Proof.
  revert s0. induction rows as [|row rows IH]; intros s0.
  - intros [= <-]. by left.
  - cbn [for_each].
    destruct (group_step env group_by s0 row) as [s'|] eqn:Hstep; [|discriminate].
    cbn [mbind outcome_bind]. intros Hrest Hk.
    destruct (IH _ Hrest Hk) as [Hk'|(row' & dt & Hin & Hd & ->)].
    2:{ right. exists row', dt. set_solver. }
    destruct (row_date row) as [dt|] eqn:Hd.
    + rewrite (group_step_dated _ _ _ _ _ Hd) in Hstep.
      destruct (method_get row "Amount" (VInt 0)) as [amount|]; [|discriminate].
      cbn [mbind outcome_bind] in Hstep.
      destruct (py_float env amount) as [x|]; [|discriminate].
      injection Hstep as <-.
      destruct (decide (group_key group_by dt = k)) as [<-|Hne].
      * right. exists row, dt. set_solver.
      * left. by rewrite lookup_insert_ne in Hk'.
    + rewrite group_step_undated in Hstep by (by rewrite Hd).
      injection Hstep as <-. by left.
Qed.

(** ** Exceptions *)

Lemma report_fetch_answer env reply s e log :
  configured env = true ->
  exists req,
    report_fetch (answering env reply) s e log = (Returns (records_of reply), log ++ [req]).
Proof.
  intros Hc. eexists. unfold report_fetch.
  rewrite query_ido_configured by exact Hc. reflexivity.
Qed.

(** C2.  Not every failure is turned into a fallback or a message: the
    amount is coerced outside any handler.  When the remote client
    returns a record whose date parses and whose [Amount] is null,
    [float(None)] raises [TypeError] and [sales_report] lets it through. *)
Theorem sales_report_amount_raises env start_date end_date group_by log sd ed d t dt :
  configured env = true ->
  parse_range start_date end_date = Returns (sd, ed) ->
  d !! "InvoiceDate" = Some (VStr t) ->
  strptime t fmt_Ymd = Returns dt ->
  d !! "Amount" = Some VNone ->
  fst (sales_report (answering env (ok_json (VDict {[ "items" := VList [VDict d] ]})))
         start_date end_date group_by log) = Raises TypeError.
Proof.
  intros Hc Hp Hi Ht Ha.
  destruct (report_fetch_answer env
    (ok_json (VDict {[ "items" := VList [VDict d] ]})) start_date end_date log Hc)
    as [req Hq].
  change (records_of _) with (items_of (VDict {[ "items" := VList [VDict d] ]})) in Hq.
  rewrite items_of_envelope in Hq.
  rewrite (sales_report_live _ _ _ _ _ _ _ _ _ Hp Hq) by done.
  rewrite normalize_records_map. cbn [map_outcome].
  rewrite normalize_row_dict. cbn [mbind outcome_bind mret outcome_ret].
  unfold group_records. cbn [for_each].
  destruct (rename_date_renamed d) as (_ & Htd & Hother).
  unfold date_field in Htd. rewrite Hi in Htd. cbn in Htd.
  rewrite (group_step_dated _ _ _ _ dt).
  2:{ unfold row_date. cbn [subscript]. by rewrite Htd. }
  cbn [method_get]. rewrite Hother, Ha by done. reflexivity.
Qed.

Lemma sales_report_amount_raises_witness :
  let env := mkenv (Some "https://erp.example/idoapi") (Some "Grp:Site")
               (Some "t0k3n") (fun _ => Raises RequestException) (fun _ => None) in
  let d : gmap string value :=
    {[ "InvoiceDate" := VStr "2026-01-01"; "Type" := VStr "Product";
       "Amount" := VNone; "CustNum" := VStr "C0001" ]} in
  fst (sales_report (answering env (ok_json (VDict {[ "items" := VList [VDict d] ]})))
         "2026-01-01" "2026-01-31" "day" []) = Raises TypeError.
Proof.
  intros env d.
  apply (sales_report_amount_raises env "2026-01-01" "2026-01-31" "day" []
           (mkdate 2026 1 1) (mkdate 2026 1 31) d "2026-01-01"
           (mkdatetime 2026 1 1 0 0 0 0));
    vm_compute; reflexivity.
Defined.

(** The failures that are handled. *)

Lemma generic_query_returns env ido properties filter_expr order_by log :
  exists resp log',
    generic_query env ido properties filter_expr order_by log = (Returns resp, log').
Proof.
  unfold generic_query, mbind, io_bind.
  match goal with
  | |- context [query_ido env ?i ?p ?f ?o ?c log] =>
      destruct (query_ido_returns env i p f o c log) as (records & log' & ->)
  end.
  by eexists _, _.
Qed.

Lemma for_each_returns {S A} (body : S -> A -> outcome S) l :
  Forall (fun a => forall s, returned (body s a) = true) l ->
  forall s, returned (for_each body s l) = true.
Proof.
  induction 1 as [|a l Ha _ IH]; intros s; [reflexivity|].
  cbn [for_each]. specialize (Ha s).
  destruct (body s a); [apply IH|discriminate].
Qed.

Lemma dummy_sales_group env group_by :
  Forall (fun row => forall s, returned (group_step env group_by s row) = true)
         DUMMY_SALES.
Proof.
  repeat constructor; intros s;
    match goal with
    | |- context [group_step _ _ _ (dummy_row ?t _ _ _ _)] =>
        let dt := eval vm_compute in (strptime t fmt_Ymd) in
        match dt with
        | Returns ?dt => rewrite (group_step_dated _ _ _ _ dt) by reflexivity
        end
    end; reflexivity.
Qed.

(** On the fallback path [sales_report] raises nothing, whatever the
    form parameters. *)
Lemma sales_report_fallback_returns env s e group_by log log' :
  report_fetch env s e log = (Returns [], log') ->
  exists resp log'', sales_report env s e group_by log = (Returns resp, log'').
Proof.
  intros Hq. destruct (parse_range s e) as [[sd ed]|x] eqn:Hp.
  - rewrite (sales_report_fallback _ _ _ _ _ _ _ _ Hp Hq).
    destruct (filter_by_range_returns sd ed _ dummy_sales_dated) as (kept & -> & Hsub).
    cbn [mbind outcome_bind].
    assert (Hk : returned (group_records env group_by kept) = true).
    { apply for_each_returns. pose proof (dummy_sales_group env group_by) as Hall.
      rewrite Forall_forall in Hall |- *. auto. }
    destruct (group_records env group_by kept); [|discriminate].
    by eexists _, _.
  - eexists _, _. apply sales_report_invalid. by rewrite Hp.
Qed.

(** * Further properties *)

#[local] Set Warnings "-clear-no-such-hyp".

(** ** The remote data client *)

(** X1.  [query_ido] raises nothing, whatever the configuration, the
    arguments and the behaviour of the server, and it sends at most
    one request: the log is left as it was or grows by one entry. *)
Theorem query_ido_total_one_request env ido properties filter_expr order_by cap log :
  exists records log',
    query_ido env ido properties filter_expr order_by cap log = (Returns records, log') /\
    (log' = log \/ exists req, log' = log ++ [req]).
Proof.
  destruct (configured env) eqn:Hc.
  - eexists _, _. split; [by apply query_ido_configured|]. right. by eexists.
  - eexists _, _. split; [by apply query_ido_unconfigured|]. by left.
Qed.

(** X2.  With the configuration in place, a request that fails in
    transport, an answer with a status from 400 to 599 and an answer
    whose body is not JSON all give the empty list, after the one
    request has been sent. *)
Theorem query_ido_failure_empty env ido properties filter_expr order_by cap log :
  configured env = true ->
  let req := ido_request env ido properties filter_expr order_by cap in
  (exists e, requests_get env req = Raises e) \/
  (exists resp, requests_get env req = Returns resp /\
     (error_status (status_code resp) \/ json_body resp = None)) ->
  query_ido env ido properties filter_expr order_by cap log =
    (Returns [], log ++ [req]).
Proof.
  intros Hc req H. rewrite query_ido_configured by exact Hc.
  fold req. f_equal. f_equal. unfold records_of.
  destruct H as [[e ->]|(resp & -> & H)]; [reflexivity|].
  unfold raise_for_status.
  destruct H as [[H1 H2]|H].
  - apply Nat.leb_le in H1. apply Nat.ltb_lt in H2. by rewrite H1, H2.
  - rewrite H. by destruct (_ && _).
Qed.

Lemma query_ido_failure_empty_witness :
  let env := mkenv (Some "https://erp.example/idoapi") (Some "Grp:Site")
               (Some "t0k3n")
               (fun _ => Returns (mkresponse 503 (Some (VDict {[ "items" := VList [VInt 1] ]}))))
               (fun _ => None) in
  let req := ido_request env "SLCustomers" None (Some "CustNum='C1'") None 0 in
  query_ido env "SLCustomers" None (Some "CustNum='C1'") None 0 [] =
    (Returns [], [] ++ [req]).
Proof.
  intros env req.
  apply (query_ido_failure_empty env "SLCustomers" None (Some "CustNum='C1'") None 0 []).
  - reflexivity.
  - right. eexists. split; [reflexivity|]. left. unfold error_status. cbn. lia.
Defined.

Lemma items_of_nonempty data records :
  items_of data = records -> records <> [] ->
  exists d, data = VDict d /\ d !! "items" = Some (VList records).
Proof.
  intros <- Hne. destruct data as [| | | | | |d|]; try done.
  exists d. split; [done|]. unfold items_of in *.
  destruct (d !! "items") as [v|]; cbn [from_option id] in *.
  - unfold py_or in *. destruct (truthy v); [|done].
    destruct v; try done.
  - done.
Qed.

(** X3.  A non-empty result of [query_ido] can only come from a
    configured client whose request was answered, with a status
    outside 400..599, by a JSON object whose [items] field is that
    very list; every other answer gives the empty list. *)
Theorem query_ido_nonempty_inv env ido properties filter_expr order_by cap log
    records log' :
  query_ido env ido properties filter_expr order_by cap log = (Returns records, log') ->
  records <> [] ->
  let req := ido_request env ido properties filter_expr order_by cap in
  configured env = true /\ log' = log ++ [req] /\
  exists resp d,
    requests_get env req = Returns resp /\
    ~ error_status (status_code resp) /\
    json_body resp = Some (VDict d) /\
    d !! "items" = Some (VList records).
Proof.
  intros Hq Hne req. destruct (configured env) eqn:Hc.
  2:{ rewrite query_ido_unconfigured in Hq by exact Hc. by injection Hq as <- _. }
  rewrite query_ido_configured in Hq by exact Hc. fold req in Hq.
  injection Hq as Hr <-. split; [done|]. split; [done|].
  unfold records_of in Hr.
  destruct (requests_get env req) as [resp|]; [|done].
  unfold raise_for_status in Hr.
  destruct ((400 <=? status_code resp) && (status_code resp <? 600)) eqn:Hs; [done|].
  cbn [returned] in Hr.
  destruct (json_body resp) as [data|] eqn:Hb; [|done].
  destruct (items_of_nonempty _ _ Hr Hne) as (d & -> & Hd).
  exists resp, d. repeat split; try done.
  intros [H1 H2]. apply Nat.leb_le in H1. apply Nat.ltb_lt in H2.
  by rewrite H1, H2 in Hs.
Qed.

Lemma query_ido_nonempty_inv_witness :
  let row := VDict {[ "CustNum" := VStr "C0001" ]} in
  let env := mkenv (Some "https://erp.example/idoapi") (Some "Grp:Site")
               (Some "t0k3n")
               (fun _ => ok_json (VDict {[ "items" := VList [row] ]}))
               (fun _ => None) in
  let req := ido_request env "SLCustomers" None None None 0 in
  configured env = true /\ [req] = [] ++ [req] /\
  exists resp d,
    requests_get env req = Returns resp /\
    ~ error_status (status_code resp) /\
    json_body resp = Some (VDict d) /\
    d !! "items" = Some (VList [row]).
Proof.
  intros row env req.
  apply (query_ido_nonempty_inv env "SLCustomers" None None None 0 [] [row] [req]).
  - vm_compute. reflexivity.
  - discriminate.
Defined.

Lemma rstrip_by_snoc p c s :
  p c = true -> rstrip_by p (s +:+ String c "") = rstrip_by p s.
Proof.
  intros Hp. induction s as [|a s IH].
  - change (rstrip_by p (String c "") = ""). cbn [rstrip_by is_empty].
    by rewrite Hp.
  - change (rstrip_by p (String a (s +:+ String c "")) = rstrip_by p (String a s)).
    cbn [rstrip_by]. by rewrite IH.
Qed.

(** X4.  Slashes at the end of the base URL do not matter: with one
    more trailing slash the client sends the same request to the same
    URL and returns the same records. *)
Theorem query_ido_trailing_slash env base ido properties filter_expr order_by cap log :
  configured (with_base_url env base) = true ->
  query_ido (with_base_url env (base +:+ "/")) ido properties filter_expr order_by cap log =
  query_ido (with_base_url env base) ido properties filter_expr order_by cap log.
Proof.
  intros Hc.
  assert (Hc' : configured (with_base_url env (base +:+ "/")) = true).
  { unfold configured in *. cbn [BASE_URL MONGOOSE_CONFIG API_TOKEN with_base_url] in *.
    destruct base; [done|]. exact Hc. }
  rewrite !query_ido_configured by done.
  assert (Hreq : ido_request (with_base_url env (base +:+ "/")) ido properties
                   filter_expr order_by cap =
                 ido_request (with_base_url env base) ido properties
                   filter_expr order_by cap).
  { unfold ido_request. cbn [BASE_URL MONGOOSE_CONFIG API_TOKEN with_base_url from_option id].
    unfold rstrip_slash. by rewrite rstrip_by_snoc. }
  rewrite Hreq. reflexivity.
Qed.

Lemma query_ido_trailing_slash_witness :
  let env := mkenv None (Some "Grp:Site") (Some "t0k3n")
               (fun req => ok_json (VDict {[ "items" := VList [VStr (req_url req)] ]}))
               (fun _ => None) in
  query_ido (with_base_url env ("https://erp.example/idoapi" +:+ "/"))
            "SLItems" None None None 0 [] =
  query_ido (with_base_url env "https://erp.example/idoapi")
            "SLItems" None None None 0 [].
Proof.
  intros env.
  apply (query_ido_trailing_slash env "https://erp.example/idoapi").
  reflexivity.
Defined.

(** X5.  The query parameters of the request are exactly these:
    [properties], the names joined by commas, when a non-empty list of
    names is given; [filter] and [orderBy], verbatim, when a non-empty
    string is given; and [recordCap], always.  An absent or empty
    argument is never sent. *)
Theorem query_ido_params env ido properties filter_expr order_by cap log :
  configured env = true ->
  exists req,
    snd (query_ido env ido properties filter_expr order_by cap log) = log ++ [req] /\
    forall k v, (k, v) ∈ req_params req <->
      (k = "properties" /\ exists p ps,
         properties = Some (p :: ps) /\ v = VStr (join_comma (p :: ps))) \/
      (k = "filter" /\ exists c s,
         filter_expr = Some (String c s) /\ v = VStr (String c s)) \/
      (k = "orderBy" /\ exists c s,
         order_by = Some (String c s) /\ v = VStr (String c s)) \/
      (k = "recordCap" /\ v = VInt cap).
Proof.
  intros Hc. eexists. rewrite query_ido_configured by exact Hc.
  split; [reflexivity|]. intros k v.
  unfold ido_request. cbn [req_params].
  destruct properties as [[|p ps]|], filter_expr as [[|c s]|],
    order_by as [[|c' s']|];
    cbn [opt_list_truthy opt_truthy app from_option id];
    rewrite ?elem_of_cons, ?elem_of_nil; naive_solver.
Qed.

Lemma query_ido_params_witness :
  let env := mkenv (Some "https://erp.example/idoapi") (Some "Grp:Site")
               (Some "t0k3n") (fun _ => Raises RequestException) (fun _ => None) in
  exists req,
    snd (query_ido env "SLItems" (Some ["Item"; "Description"]) (Some "") None 5 []) =
      [] ++ [req] /\
    forall k v, (k, v) ∈ req_params req <->
      (k = "properties" /\ exists p ps,
         Some ["Item"; "Description"] = Some (p :: ps) /\ v = VStr (join_comma (p :: ps))) \/
      (k = "filter" /\ exists c s,
         Some "" = Some (String c s) /\ v = VStr (String c s)) \/
      (k = "orderBy" /\ exists c s,
         (None : option string) = Some (String c s) /\ v = VStr (String c s)) \/
      (k = "recordCap" /\ v = VInt 5).
Proof.
  intros env.
  apply (query_ido_params env "SLItems" (Some ["Item"; "Description"]) (Some "") None 5 []).
  reflexivity.
Defined.

(** ** The report handler *)

Lemma sales_report_log env s e group_by log sd ed :
  parse_range s e = Returns (sd, ed) ->
  snd (sales_report env s e group_by log) = snd (report_fetch env s e log).
Proof.
  intros Hp. unfold sales_report. rewrite Hp.
  destruct (query_ido_returns env "SLPostedInvoices" report_properties
              (report_query s e) None 0 log) as (records & log' & Hq).
  unfold report_fetch. rewrite Hq.
  unfold report_properties, report_query in Hq.
  unfold mbind at 1 2. unfold io_bind. rewrite Hq. unfold lift.
  destruct records as [|r records].
  - destruct (filter_by_range sd ed DUMMY_SALES) as [rows|]; [|reflexivity].
    cbn [mbind outcome_bind].
    by destruct (group_records env group_by rows).
  - destruct (normalize_records (r :: records)) as [rows|]; [|reflexivity].
    cbn [mbind outcome_bind].
    by destruct (group_records env group_by rows).
Qed.

(** X6.  With the configuration in place and two dates that parse,
    [sales_report] sends one request, to the collection
    [SLPostedInvoices], asking for the four properties
    [InvoiceDate,Type,Amount,CustNum] with the filter
    [InvoiceDate>='start' AND InvoiceDate<='end'] built from the form
    strings as they were typed, no ordering and no record cap; this
    holds whatever the server answers and whatever happens next. *)
Theorem sales_report_request env start_date end_date group_by log :
  configured env = true ->
  returned (parse_range start_date end_date) = true ->
  snd (sales_report env start_date end_date group_by log) =
    log ++ [mkrequest
      (rstrip_slash (default "" (BASE_URL env)) +:+ "/ido/SLPostedInvoices/load")
      [("properties", VStr "InvoiceDate,Type,Amount,CustNum");
       ("filter", VStr ("InvoiceDate>='" +:+ start_date +:+
                        "' AND InvoiceDate<='" +:+ end_date +:+ "'"));
       ("recordCap", VInt 0)]
      [("Authorization", "Mongoose " +:+ default "" (API_TOKEN env));
       ("X-Infor-MongooseConfig", default "" (MONGOOSE_CONFIG env))]
      30].
Proof.
  intros Hc Hp. destruct (parse_range start_date end_date) as [[sd ed]|] eqn:Hpr; [|done].
  rewrite (sales_report_log _ _ _ _ _ _ _ Hpr). unfold report_fetch.
  rewrite query_ido_configured by exact Hc. reflexivity.
Qed.

Lemma sales_report_request_witness :
  let env := mkenv (Some "https://erp.example/idoapi/") (Some "Grp:Site")
               (Some "t0k3n") (fun _ => Raises RequestException) (fun _ => None) in
  snd (sales_report env "2026-1-5" "2026-02-01" "month" []) =
    [] ++ [mkrequest
      (rstrip_slash (default "" (BASE_URL env)) +:+ "/ido/SLPostedInvoices/load")
      [("properties", VStr "InvoiceDate,Type,Amount,CustNum");
       ("filter", VStr ("InvoiceDate>='" +:+ "2026-1-5" +:+
                        "' AND InvoiceDate<='" +:+ "2026-02-01" +:+ "'"));
       ("recordCap", VInt 0)]
      [("Authorization", "Mongoose " +:+ default "" (API_TOKEN env));
       ("X-Infor-MongooseConfig", default "" (MONGOOSE_CONFIG env))]
      30].
Proof.
  intros env. apply (sales_report_request env "2026-1-5" "2026-02-01" "month" []);
    vm_compute; reflexivity.
Defined.

Lemma fallback_summary_returns env sd ed group_by :
  exists summary,
    (rows ← filter_by_range sd ed DUMMY_SALES; group_records env group_by rows) =
      Returns summary.
Proof.
  destruct (filter_by_range_returns sd ed _ dummy_sales_dated) as (kept & -> & Hsub).
  cbn [mbind outcome_bind].
  assert (Hk : returned (group_records env group_by kept) = true).
  { apply for_each_returns. pose proof (dummy_sales_group env group_by) as Hall.
    rewrite Forall_forall in Hall |- *. auto. }
  destruct (group_records env group_by kept) as [summary|]; [|discriminate].
  by exists summary.
Qed.

(** X8.  However the report is called, it sends at most one request:
    none when a date does not parse or the configuration is
    incomplete, one otherwise, also when the handler ends in an
    exception. *)
Theorem sales_report_one_request env start_date end_date group_by log :
  snd (sales_report env start_date end_date group_by log) = log \/
  exists req, snd (sales_report env start_date end_date group_by log) = log ++ [req].
Proof.
  destruct (parse_range start_date end_date) as [[sd ed]|x] eqn:Hp.
  - rewrite (sales_report_log _ _ _ _ _ _ _ Hp). unfold report_fetch.
    destruct (configured env) eqn:Hc.
    + right. eexists. by rewrite query_ido_configured.
    + left. by rewrite query_ido_unconfigured.
  - left. rewrite sales_report_invalid; [done|by rewrite Hp].
Qed.

(** ** The fallback dataset *)

Lemma for_each_ext {S A} (body body' : S -> A -> outcome S) l s :
  Forall (fun a => forall s, body s a = body' s a) l ->
  for_each body s l = for_each body' s l.
Proof.
  intros H. revert s. induction H as [|a l Ha _ IH]; intros s; [reflexivity|].
  cbn [for_each]. rewrite Ha. destruct (body' s a); [apply IH|reflexivity].
Qed.

Lemma dummy_sales_group_env env env' group_by :
  Forall (fun row => forall s,
            group_step env group_by s row = group_step env' group_by s row)
         DUMMY_SALES.
Proof.
  repeat constructor; intros s;
    match goal with
    | |- context [group_step _ _ _ (dummy_row ?t _ _ _ _)] =>
        let dt := eval vm_compute in (strptime t fmt_Ymd) in
        match dt with
        | Returns ?dt => rewrite !(group_step_dated _ _ _ _ dt) by reflexivity
        end
    end; reflexivity.
Qed.

Lemma fallback_summary_env env env' sd ed group_by :
  (rows ← filter_by_range sd ed DUMMY_SALES; group_records env group_by rows) =
  (rows ← filter_by_range sd ed DUMMY_SALES; group_records env' group_by rows).
Proof.
  destruct (filter_by_range_returns sd ed _ dummy_sales_dated) as (kept & -> & Hsub).
  cbn [mbind outcome_bind]. apply for_each_ext.
  pose proof (dummy_sales_group_env env env' group_by) as Hall.
  rewrite Forall_forall in Hall |- *. auto.
Qed.

(** X9.  When the remote call gives no record, the page depends on the
    form parameters alone: a client without configuration, a server
    that cannot be reached and a server that answers with an empty
    collection all lead to the same response. *)
Theorem sales_report_fallback_same env env' start_date end_date group_by log log' :
  fst (report_fetch env start_date end_date log) = Returns [] ->
  fst (report_fetch env' start_date end_date log') = Returns [] ->
  fst (sales_report env start_date end_date group_by log) =
  fst (sales_report env' start_date end_date group_by log').
Proof.
  intros H1 H2.
  destruct (report_fetch env start_date end_date log) as [r1 l1] eqn:Hq1.
  destruct (report_fetch env' start_date end_date log') as [r2 l2] eqn:Hq2.
  cbn [fst] in H1, H2. subst r1 r2.
  destruct (parse_range start_date end_date) as [[sd ed]|x] eqn:Hp.
  - rewrite (sales_report_fallback _ _ _ _ _ _ _ _ Hp Hq1),
      (sales_report_fallback _ _ _ _ _ _ _ _ Hp Hq2).
    rewrite (fallback_summary_env env env').
    by destruct (_ ≫= _).
  - rewrite !sales_report_invalid by (by rewrite Hp). reflexivity.
Qed.

Lemma sales_report_fallback_same_witness :
  let env := mkenv None None None (fun _ => Raises RequestException) (fun _ => None) in
  let env' := mkenv (Some "https://erp.example/idoapi") (Some "Grp:Site")
                (Some "t0k3n") (fun _ => ok_json (VDict {[ "items" := VList [] ]}))
                (fun _ => Some 1.0%float) in
  fst (sales_report env "2026-01-01" "2026-01-31" "month" []) =
  fst (sales_report env' "2026-01-01" "2026-01-31" "month" []).
Proof.
  intros env env'.
  apply (sales_report_fallback_same env env' "2026-01-01" "2026-01-31" "month" [] []);
    vm_compute; reflexivity.
Defined.

(** X10.  On rows that all carry a date that parses, the fallback
    filter raises nothing and keeps, in their order, exactly the rows
    dated from the start date to the end date, both included. *)
Theorem filter_by_range_selects sd ed rows :
  Forall (fun row => returned (row_date row) = true) rows ->
  filter_by_range sd ed rows = Returns (List.filter (in_range sd ed) rows).
Proof.
  induction 1 as [|row rest Hrow _ IH]; [reflexivity|].
  rewrite filter_by_range_cons, IH. cbn [List.filter]. unfold in_range at 2.
  destruct (row_date row) as [dt|]; [|discriminate]. cbn [mbind outcome_bind].
  by destruct (date_le sd (date_of dt) && date_le (date_of dt) ed).
Qed.

Lemma filter_by_range_selects_witness :
  let rows := [ VDict {[ "TransDate" := VStr "2026-03-01" ]};
                VDict {[ "TransDate" := VStr "2026-03-02" ]};
                VDict {[ "TransDate" := VStr "2026-03-10" ]};
                VDict {[ "TransDate" := VStr "2026-03-11" ]} ] in
  filter_by_range (mkdate 2026 3 2) (mkdate 2026 3 10) rows =
    Returns (List.filter (in_range (mkdate 2026 3 2) (mkdate 2026 3 10)) rows).
Proof.
  intros rows. apply (filter_by_range_selects (mkdate 2026 3 2) (mkdate 2026 3 10) rows).
  repeat constructor.
Defined.

(** ** Grouping *)

Lemma group_step_bucket env group_by k s0 s' row :
  group_step env group_by s0 row = Returns s' ->
  s' !! k = bucket_add env group_by k (s0 !! k) row.
Proof.
  unfold bucket_add. destruct (row_date row) as [dt|] eqn:Hd.
  - rewrite (group_step_dated _ _ _ _ _ Hd). fold (row_amount env row).
    unfold row_amount.
    destruct (method_get row "Amount" (VInt 0)) as [amount|]; [|discriminate].
    cbn [mbind outcome_bind].
    destruct (py_float env amount) as [x|]; [|discriminate].
    intros [= <-].
    destruct (String.eqb_spec (group_key group_by dt) k) as [<-|Hne].
    + by rewrite lookup_insert_eq.
    + by rewrite lookup_insert_ne.
  - rewrite group_step_undated by (by rewrite Hd). by intros [= <-].
Qed.

Lemma for_each_group_bucket env group_by k rows s0 s1 :
  for_each (group_step env group_by) s0 rows = Returns s1 ->
  s1 !! k = fold_left (bucket_add env group_by k) rows (s0 !! k).
Proof.
  revert s0. induction rows as [|row rows IH]; intros s0.
  - by intros [= <-].
  - cbn [for_each fold_left].
    destruct (group_step env group_by s0 row) as [s'|] eqn:Hstep; [|discriminate].
    cbn [mbind outcome_bind]. intros Hrest.
    by rewrite (IH _ Hrest), (group_step_bucket _ _ k _ _ _ Hstep).
Qed.

(** X11.  When grouping returns, the total of each bucket is the sum
    of the amounts of the records with that key, added in the order of
    the records to an initial 0.0, a missing amount counting as 0; a
    key no dated record has is not in the summary. *)
Theorem group_records_totals env group_by rows summary k :
  group_records env group_by rows = Returns summary ->
  summary !! k = fold_left (bucket_add env group_by k) rows None.
Proof.
  intros H. apply (for_each_group_bucket _ _ k) in H.
  by rewrite lookup_empty in H.
Qed.

Lemma group_records_totals_witness :
  let env := mkenv None None None (fun _ => Raises RequestException) (fun _ => None) in
  let row (t : string) (x : value) : value :=
    VDict {[ "TransDate" := VStr t; "Amount" := x ]} in
  let rows := [ row "2026-03-01" (VFloat 0.5); row "2026-03-02" (VInt 7);
                row "2026-03-01" (VFloat 0.25);
                VDict {[ "TransDate" := VStr "2026-03-01" ]} ] in
  let summary : gmap string float :=
    {[ "2026-03-01" := (0.0 + 0.5 + 0.25 + 0.0)%float; "2026-03-02" := 7.0%float ]} in
  summary !! "2026-03-01" =
    fold_left (bucket_add env "day" "2026-03-01") rows None.
Proof.
  intros env row rows summary.
  apply (group_records_totals env "day" rows summary "2026-03-01").
  vm_compute. reflexivity.
Defined.

Lemma bucket_add_is_Some env group_by k acc row :
  is_Some acc -> is_Some (bucket_add env group_by k acc row).
Proof.
  intros Hacc. unfold bucket_add.
  destruct (row_date row), (row_amount env row); try done.
  by destruct (String.eqb _ _).
Qed.

Lemma group_step_creates env group_by s0 s' row dt :
  group_step env group_by s0 row = Returns s' ->
  row_date row = Returns dt ->
  is_Some (s' !! group_key group_by dt).
Proof.
  intros Hstep Hd. rewrite (group_step_dated _ _ _ _ _ Hd) in Hstep.
  destruct (method_get row "Amount" (VInt 0)) as [amount|]; [|discriminate].
  cbn [mbind outcome_bind] in Hstep.
  destruct (py_float env amount) as [x|]; [|discriminate].
  injection Hstep as <-. by rewrite lookup_insert_eq.
Qed.

Lemma for_each_group_covers env group_by k rows s0 s1 :
  for_each (group_step env group_by) s0 rows = Returns s1 ->
  is_Some (s0 !! k) \/
    (exists row dt, row ∈ rows /\ row_date row = Returns dt /\
                    k = group_key group_by dt) ->
  is_Some (s1 !! k).
Proof.
  revert s0. induction rows as [|row rows IH]; intros s0.
  - intros [= <-] [H|(row & dt & Hin & _)]; [done|]. by apply elem_of_nil in Hin.
  - cbn [for_each].
    destruct (group_step env group_by s0 row) as [s'|] eqn:Hstep; [|discriminate].
    cbn [mbind outcome_bind]. intros Hrest H. apply (IH _ Hrest).
    destruct H as [Hacc|(row' & dt & Hin & Hd & ->)].
    + left. rewrite (group_step_bucket _ _ k _ _ _ Hstep).
      by apply bucket_add_is_Some.
    + apply elem_of_cons in Hin as [->|Hin].
      * left. by eapply group_step_creates.
      * right. by exists row', dt.
Qed.

(** X12.  When grouping returns, the summary has a bucket for exactly
    the keys of the records whose date parses: each such record gets a
    bucket, also when it has no amount, and no other key appears. *)
Theorem group_records_buckets env group_by rows summary k :
  group_records env group_by rows = Returns summary ->
  is_Some (summary !! k) <->
  exists row dt, row ∈ rows /\ row_date row = Returns dt /\ k = group_key group_by dt.
Proof.
  intros H. split.
  - intros Hk. destruct (group_records_keys _ _ _ _ _ _ H Hk) as [Hempty|Hrow]; [|done].
    rewrite lookup_empty in Hempty. by destruct Hempty.
  - intros Hrow. eapply for_each_group_covers; [exact H|by right].
Qed.

Lemma group_records_buckets_witness :
  let env := mkenv None None None (fun _ => Raises RequestException) (fun _ => None) in
  let rows := [ VDict {[ "TransDate" := VStr "2026-03-01"; "Amount" := VInt 2 ]};
                VDict {[ "TransDate" := VStr "yesterday"; "Amount" := VInt 3 ]};
                VDict {[ "TransDate" := VStr "2026-04-09" ]} ] in
  let summary : gmap string float :=
    {[ "2026-03" := 2.0%float; "2026-04" := 0.0%float ]} in
  is_Some (summary !! "2026-04") <->
  exists row dt, row ∈ rows /\ row_date row = Returns dt /\ "2026-04" = group_key "month" dt.
Proof.
  intros env rows summary.
  apply (group_records_buckets env "month" rows summary "2026-04").
  vm_compute. reflexivity.
Defined.

Lemma filter_by_range_as_filter sd ed rows :
  Forall (fun row => returned (row_date row) = true) rows ->
  filter_by_range sd ed rows = Returns (List.filter (in_range sd ed) rows).
Proof.
  induction 1 as [|row rest Hrow _ IH]; [reflexivity|].
  rewrite filter_by_range_cons, IH. cbn [List.filter]. unfold in_range at 2.
  destruct (row_date row) as [dt|]; [|discriminate]. cbn [mbind outcome_bind].
  by destruct (date_le sd (date_of dt) && date_le (date_of dt) ed).
Qed.

Lemma group_bucket_totals env group_by rows summary k :
  group_records env group_by rows = Returns summary ->
  summary !! k = fold_left (bucket_add env group_by k) rows None.
Proof.
  intros H. apply (for_each_group_bucket _ _ k) in H.
  by rewrite lookup_empty in H.
Qed.

(** X7.  Without a complete configuration the report handler touches
    the network not at all and always renders a page.  For dates that
    do not parse it is the error page.  Otherwise it is the summary of
    the fallback dataset: the total under each key is the sum, from
    0.0 and in the order of [DUMMY_SALES], of the amounts of the
    fallback rows dated within the range, both ends included, whose
    date has that key, and a key of no such row has no bucket. *)
Theorem sales_report_unconfigured env start_date end_date group_by log :
  configured env = false ->
  (returned (parse_range start_date end_date) = false ->
     sales_report env start_date end_date group_by log =
       (Returns error_response, log)) /\
  (forall sd ed, parse_range start_date end_date = Returns (sd, ed) ->
     exists summary,
       sales_report env start_date end_date group_by log =
         (Returns (report_response summary), log) /\
       forall k, summary !! k =
         fold_left (bucket_add env group_by k)
                   (List.filter (in_range sd ed) DUMMY_SALES) None).
Proof.
  intros Hc. split.
  - apply sales_report_invalid.
  - intros sd ed Hp.
    assert (Hq : report_fetch env start_date end_date log = (Returns [], log))
      by by apply query_ido_unconfigured.
    rewrite (sales_report_fallback _ _ _ _ _ _ _ _ Hp Hq).
    destruct (fallback_summary_returns env sd ed group_by) as [summary Hs].
    rewrite Hs. exists summary. split; [reflexivity|].
    rewrite (filter_by_range_as_filter _ _ _ dummy_sales_dated) in Hs.
    cbn [mbind outcome_bind] in Hs.
    intros k. by apply group_bucket_totals.
Qed.

Lemma sales_report_unconfigured_witness :
  let env := mkenv (Some "https://erp.example/idoapi") (Some "") (Some "t0k3n")
               (fun _ => ok_json (VList [])) (fun _ => None) in
  (returned (parse_range "2026-01-01" "2026-03-01") = false ->
     sales_report env "2026-01-01" "2026-03-01" "year" [] =
       (Returns error_response, [])) /\
  (forall sd ed, parse_range "2026-01-01" "2026-03-01" = Returns (sd, ed) ->
     exists summary,
       sales_report env "2026-01-01" "2026-03-01" "year" [] =
         (Returns (report_response summary), []) /\
       forall k, summary !! k =
         fold_left (bucket_add env "year" k)
                   (List.filter (in_range sd ed) DUMMY_SALES) None).
Proof.
  intros env. apply (sales_report_unconfigured env). reflexivity.
Defined.

(** ** Live records *)

(** X13.  A live list that holds a value which is not a JSON object (a
    number, a string, a list, null) makes the report handler raise:
    the normalisation loop treats every element as a dictionary. *)
Theorem sales_report_non_record_raises
    env start_date end_date group_by log log' sd ed records :
  parse_range start_date end_date = Returns (sd, ed) ->
  report_fetch env start_date end_date log = (Returns records, log') ->
  (exists row, row ∈ records /\ is_dict row = false) ->
  exists e, sales_report env start_date end_date group_by log = (Raises e, log').
Proof.
  intros Hp Hq (row & Hin & Hrow).
  assert (Hne : records <> []) by (intros ->; by apply elem_of_nil in Hin).
  rewrite (sales_report_live _ _ _ _ _ _ _ _ _ Hp Hq Hne), normalize_records_map.
  destruct (map_outcome normalize_row records) as [rows|x] eqn:Hn.
  - apply map_outcome_normalize in Hn.
    apply list_elem_of_lookup in Hin as [i Hi].
    destruct (Forall2_lookup_l _ _ _ _ _ Hn Hi) as (row' & _ & d & d' & -> & _).
    discriminate.
  - by exists x.
Qed.

Lemma sales_report_non_record_raises_witness :
  let env := mkenv (Some "https://erp.example/idoapi") (Some "Grp:Site")
               (Some "t0k3n")
               (fun _ => ok_json (VDict {[ "items" := VList [VStr "n/a"] ]}))
               (fun _ => None) in
  let req := ido_request env "SLPostedInvoices" report_properties
               (report_query "2026-01-01" "2026-01-02") None 0 in
  exists e, sales_report env "2026-01-01" "2026-01-02" "day" [] = (Raises e, [req]).
Proof.
  intros env req.
  apply (sales_report_non_record_raises env "2026-01-01" "2026-01-02" "day" [] [req]
           (mkdate 2026 1 1) (mkdate 2026 1 2) [VStr "n/a"]).
  - vm_compute. reflexivity.
  - vm_compute. reflexivity.
  - exists (VStr "n/a"). split; [apply list_elem_of_here|reflexivity].
Defined.

Lemma normalized_group_returns env group_by row row' :
  normalized row row' -> amount_ok env row = true ->
  forall s, returned (group_step env group_by s row') = true.
Proof.
  intros (d & d' & -> & -> & _ & _ & Hother) Hok s.
  destruct (row_date (VDict d')) as [dt|] eqn:Hd.
  - rewrite (group_step_dated _ _ _ _ _ Hd). cbn [method_get mbind outcome_bind].
    rewrite Hother by done. cbn [amount_ok] in Hok.
    by destruct (py_float env _).
  - by rewrite group_step_undated by (by rewrite Hd).
Qed.

(** X14.  When every live record is a dictionary whose amount is
    absent or accepted by [float], the report handler raises nothing
    and renders the summary page, whatever the dates of the records
    and whatever else they hold. *)
Theorem sales_report_live_returns
    env start_date end_date group_by log log' sd ed records :
  parse_range start_date end_date = Returns (sd, ed) ->
  report_fetch env start_date end_date log = (Returns records, log') ->
  records <> [] ->
  Forall (fun row => amount_ok env row = true) records ->
  exists summary,
    sales_report env start_date end_date group_by log =
      (Returns (report_response summary), log').
Proof.
  intros Hp Hq Hne Hok.
  assert (Hd : Forall (fun row => is_dict row = true) records).
  { eapply Forall_impl; [exact Hok|]. by intros []. }
  destruct (map_outcome_dicts _ Hd) as [rows Hrows].
  rewrite (sales_report_live _ _ _ _ _ _ _ _ _ Hp Hq Hne), normalize_records_map, Hrows.
  cbn [mbind outcome_bind].
  assert (Hg : returned (group_records env group_by rows) = true).
  { apply for_each_returns. apply map_outcome_normalize in Hrows.
    clear -Hrows Hok. induction Hrows as [|row row' records rows Hn _ IH].
    - constructor.
    - apply Forall_cons in Hok as [Hrow Hok]. constructor; [|by apply IH].
      by eapply normalized_group_returns. }
  destruct (group_records env group_by rows) as [summary|]; [|discriminate].
  by exists summary.
Qed.

Lemma sales_report_live_returns_witness :
  let rows := [ VDict {[ "InvoiceDate" := VStr "2026-01-01"; "Amount" := VInt 12 ]};
                VDict {[ "InvoiceDate" := VNone; "Amount" := VBool true ]};
                VDict {[ "Type" := VStr "Misc" ]} ] in
  let env := mkenv (Some "https://erp.example/idoapi") (Some "Grp:Site")
               (Some "t0k3n") (fun _ => ok_json (VDict {[ "items" := VList rows ]}))
               (fun _ => None) in
  let req := ido_request env "SLPostedInvoices" report_properties
               (report_query "2026-01-01" "2026-01-02") None 0 in
  exists summary,
    sales_report env "2026-01-01" "2026-01-02" "day" [] =
      (Returns (report_response summary), [req]).
Proof.
  intros rows env req.
  apply (sales_report_live_returns env "2026-01-01" "2026-01-02" "day" [] [req]
           (mkdate 2026 1 1) (mkdate 2026 1 2) rows).
  - vm_compute. reflexivity.
  - vm_compute. reflexivity.
  - discriminate.
  - repeat constructor.
Defined.

Lemma iso_value_not_datetime v dt : iso_value v <> VDatetime dt.
Proof. by destruct v. Qed.

Lemma rename_date_fixed d :
  d !! "InvoiceDate" = None ->
  (forall dt, d !! "TransDate" <> Some (VDatetime dt)) ->
  rename_date d = d.
Proof.
  intros Hi Ht. unfold rename_date. rewrite Hi.
  destruct (d !! "TransDate") as [v|] eqn:Hv; [|done].
  destruct v; try done. by destruct (Ht dt).
Qed.

Lemma rename_date_idempotent d : rename_date (rename_date d) = rename_date d.
Proof.
  destruct (rename_date_renamed d) as (Hi & Ht & _).
  apply rename_date_fixed; [done|].
  intros dt. rewrite Ht. destruct (date_field d) as [v|]; cbn; [|done].
  intros [= H]. by apply iso_value_not_datetime in H.
Qed.

(** X15.  Normalisation is idempotent: run on records it has already
    normalised, the loop raises nothing and changes nothing. *)
Theorem normalize_records_idempotent records rows :
  normalize_records records = Returns rows ->
  normalize_records rows = Returns rows.
Proof.
  rewrite !normalize_records_map. revert rows.
  induction records as [|row records IH]; intros rows.
  - by intros [= <-].
  - cbn [map_outcome].
    destruct (normalize_row row) as [row'|] eqn:Hrow; [|discriminate].
    cbn [mbind outcome_bind].
    destruct (map_outcome normalize_row records) as [rows'|]; [|discriminate].
    intros [= <-].
    destruct (normalize_row_returns _ _ Hrow) as [d ->].
    rewrite normalize_row_dict in Hrow. injection Hrow as <-.
    cbn [map_outcome].
    by rewrite normalize_row_dict, rename_date_idempotent, (IH rows' eq_refl).
Qed.

Lemma normalize_records_idempotent_witness :
  let d : gmap string value :=
    {[ "InvoiceDate" := VDatetime (mkdatetime 2026 1 9 13 30 0 0);
       "TransDate" := VStr "stale" ]} in
  let d1 : gmap string value := {[ "TransDate" := VStr "2026-01-09" ]} in
  normalize_records [VDict d1] = Returns [VDict d1].
Proof.
  intros d d1. apply (normalize_records_idempotent [VDict d] [VDict d1]).
  vm_compute. reflexivity.
Defined.

(** ** The ad-hoc query handler *)

Lemma generic_query_unfold env ido properties filter_expr order_by log :
  generic_query env ido properties filter_expr order_by log =
    let '(r, log') :=
      query_ido env ido
        (match clean_properties properties with
         | [] => None
         | _ :: _ => Some (clean_properties properties)
         end)
        (if is_empty filter_expr then None else Some filter_expr)
        (if is_empty order_by then None else Some order_by) 0 log in
    match r with
    | Returns records => (Returns (query_response records), log')
    | Raises e => (Raises e, log')
    end.
Proof.
  unfold generic_query, clean_properties, mbind, io_bind.
  destruct (query_ido _ _ _ _ _ _ _) as [[records|e] log']; reflexivity.
Qed.

(** X16.  [generic_query] raises nothing and always renders the result
    page.  Its items are the records [query_ido] returns for the
    collection, the cleaned property names and the non-empty filter
    and ordering, with no summary and no error.  Without a complete
    configuration the items are empty and nothing is sent; otherwise
    exactly one request is sent and the items are what [query_ido]
    reads in the answer to that request. *)
Theorem generic_query_page env ido properties filter_expr order_by log :
  let names :=
    match clean_properties properties with
    | [] => None
    | _ :: _ => Some (clean_properties properties)
    end in
  let filter_val := if is_empty filter_expr then None else Some filter_expr in
  let order_val := if is_empty order_by then None else Some order_by in
  exists records log',
    query_ido env ido names filter_val order_val 0 log = (Returns records, log') /\
    generic_query env ido properties filter_expr order_by log =
      (Returns (query_response records), log') /\
    context (query_response records) !! "items" = Some (CItems records) /\
    context (query_response records) !! "sales_summary" = Some CNone /\
    context (query_response records) !! "error" = Some CNone /\
    (configured env = false -> records = [] /\ log' = log) /\
    (configured env = true ->
       let req := ido_request env ido names filter_val order_val 0 in
       log' = log ++ [req] /\ records = records_of (requests_get env req)).
Proof.
  intros names filter_val order_val. rewrite generic_query_unfold.
  fold names filter_val order_val.
  destruct (configured env) eqn:Hc.
  - rewrite query_ido_configured by exact Hc.
    eexists _, _. repeat split; done.
  - rewrite query_ido_unconfigured by exact Hc.
    eexists _, _. repeat split; done.
Qed.

(** X17.  The parameters [generic_query] sends: [properties] carries
    the names left after cleaning, joined by commas, and is absent
    when no name is left; [filter] and [orderBy] carry the form fields
    verbatim and are absent for empty fields; [recordCap] is 0. *)
Theorem generic_query_params env ido properties filter_expr order_by log :
  configured env = true ->
  exists req,
    snd (generic_query env ido properties filter_expr order_by log) = log ++ [req] /\
    forall k v, (k, v) ∈ req_params req <->
      (k = "properties" /\ clean_properties properties <> [] /\
         v = VStr (join_comma (clean_properties properties))) \/
      (k = "filter" /\ filter_expr <> "" /\ v = VStr filter_expr) \/
      (k = "orderBy" /\ order_by <> "" /\ v = VStr order_by) \/
      (k = "recordCap" /\ v = VInt 0).
Proof.
  intros Hc. rewrite generic_query_unfold.
  rewrite query_ido_configured by exact Hc. eexists. split; [reflexivity|].
  intros k v. unfold ido_request. cbn [req_params].
  destruct (clean_properties properties) as [|p ps], filter_expr as [|c s],
    order_by as [|c' s'];
    cbn [is_empty opt_list_truthy opt_truthy app from_option id];
    rewrite ?elem_of_cons, ?elem_of_nil; naive_solver.
Qed.

Lemma generic_query_params_witness :
  let env := mkenv (Some "https://erp.example/idoapi") (Some "Grp:Site")
               (Some "t0k3n") (fun _ => Raises RequestException) (fun _ => None) in
  exists req,
    snd (generic_query env "SLItems" " Item , ,Description" "" "Item DESC" []) =
      [] ++ [req] /\
    forall k v, (k, v) ∈ req_params req <->
      (k = "properties" /\ clean_properties " Item , ,Description" <> [] /\
         v = VStr (join_comma (clean_properties " Item , ,Description"))) \/
      (k = "filter" /\ "" <> "" /\ v = VStr "") \/
      (k = "orderBy" /\ "Item DESC" <> "" /\ v = VStr "Item DESC") \/
      (k = "recordCap" /\ v = VInt 0).
Proof.
  intros env.
  apply (generic_query_params env "SLItems" " Item , ,Description" "" "Item DESC" []).
  reflexivity.
Defined.

(** *** Cleaning the list of property names *)

Lemma rstrip_by_idempotent p s : rstrip_by p (rstrip_by p s) = rstrip_by p s.
Proof.
  induction s as [|c s IH]; [reflexivity|].
  cbn [rstrip_by]. destruct (p c && is_empty (rstrip_by p s)) eqn:Hc; [reflexivity|].
  cbn [rstrip_by]. by rewrite IH, Hc.
Qed.

Lemma rstrip_by_cons_fixed p c s :
  rstrip_by p (String c s) = String c s -> rstrip_by p s = s.
Proof.
  cbn [rstrip_by]. destruct (p c && is_empty (rstrip_by p s)); [discriminate|].
  by intros [= ->].
Qed.

Lemma rstrip_lstrip_fixed p s :
  rstrip_by p s = s -> rstrip_by p (lstrip_by p s) = lstrip_by p s.
Proof.
  induction s as [|c s IH]; [done|].
  intros H. cbn [lstrip_by]. destruct (p c); [|exact H].
  apply IH. by eapply rstrip_by_cons_fixed.
Qed.

Lemma lstrip_by_idempotent p s : lstrip_by p (lstrip_by p s) = lstrip_by p s.
Proof.
  induction s as [|c s IH]; [reflexivity|].
  cbn [lstrip_by]. destruct (p c) eqn:Hc; [exact IH|].
  cbn [lstrip_by]. by rewrite Hc.
Qed.

Lemma strip_idempotent s : strip (strip s) = strip s.
Proof.
  unfold strip.
  rewrite (rstrip_lstrip_fixed _ _ (rstrip_by_idempotent is_space s)).
  apply lstrip_by_idempotent.
Qed.

Lemma has_comma_rstrip p s : has_comma s = false -> has_comma (rstrip_by p s) = false.
Proof.
  induction s as [|c s IH]; [done|].
  cbn [has_comma rstrip_by]. intros [Hc Hs]%orb_false_elim.
  destruct (p c && is_empty (rstrip_by p s)); [done|].
  cbn [has_comma]. by rewrite Hc, IH.
Qed.

Lemma has_comma_lstrip p s : has_comma s = false -> has_comma (lstrip_by p s) = false.
Proof.
  induction s as [|c s IH]; [done|].
  cbn [lstrip_by]. destruct (p c); [|done].
  cbn [has_comma]. intros [_ Hs]%orb_false_elim. by apply IH.
Qed.

Lemma split_comma_no_comma s : Forall (fun p => has_comma p = false) (split_comma s).
Proof.
  induction s as [|c s IH]; [by repeat constructor|].
  cbn [split_comma]. destruct (Ascii.eqb c ",") eqn:Hc.
  - by constructor.
  - destruct (split_comma s) as [|h t].
    + repeat constructor. cbn [has_comma]. by rewrite Hc.
    + apply Forall_cons in IH as [Hh Ht]. constructor; [|done].
      cbn [has_comma]. by rewrite Hc, Hh.
Qed.

Lemma split_comma_plain s : has_comma s = false -> split_comma s = [s].
Proof.
  induction s as [|c s IH]; [done|].
  cbn [has_comma split_comma]. intros [Hc Hs]%orb_false_elim.
  by rewrite Hc, IH.
Qed.

Lemma split_comma_app p rest :
  has_comma p = false ->
  split_comma (p +:+ String "," rest) = p :: split_comma rest.
Proof.
  induction p as [|c p IH]; [done|].
  cbn [has_comma]. intros [Hc Hp]%orb_false_elim.
  change (split_comma (String c (p +:+ String "," rest)) =
          String c p :: split_comma rest).
  cbn [split_comma]. by rewrite Hc, IH.
Qed.

Lemma split_join_comma l :
  l <> [] -> Forall (fun p => has_comma p = false) l ->
  split_comma (join_comma l) = l.
Proof.
  intros Hne H. induction H as [|p l Hp Hl IH]; [done|].
  destruct l as [|q l].
  - by apply split_comma_plain.
  - change (join_comma (p :: q :: l)) with (p +:+ String "," (join_comma (q :: l))).
    rewrite split_comma_app by done. by rewrite IH.
Qed.

Lemma clean_properties_names properties :
  Forall (fun p => is_empty p = false /\ strip p = p /\ has_comma p = false)
         (clean_properties properties).
Proof.
  unfold clean_properties. apply Forall_fmap, Forall_forall.
  intros q [Hq Hin]%list_elem_of_filter. cbn.
  split; [done|]. split; [apply strip_idempotent|].
  pose proof (split_comma_no_comma properties) as Hall.
  rewrite Forall_forall in Hall.
  unfold strip. by apply has_comma_lstrip, has_comma_rstrip, Hall.
Qed.

(** X18.  The names [generic_query] keeps are never empty, carry no
    blank at either end and no comma; joined with commas they can be
    split again into the same names, so that cleaning what was sent
    gives what was sent. *)
Theorem clean_properties_stable properties :
  let names := clean_properties properties in
  Forall (fun p => is_empty p = false /\ strip p = p /\ has_comma p = false) names /\
  (names <> [] -> split_comma (join_comma names) = names) /\
  clean_properties (join_comma names) = names.
Proof.
  intros names. pose proof (clean_properties_names properties) as Hn.
  fold names in Hn. split; [exact Hn|].
  assert (Hsplit : names <> [] -> split_comma (join_comma names) = names).
  { intros Hne. apply split_join_comma; [done|].
    eapply Forall_impl; [exact Hn|]. by intros p (_ & _ & ?). }
  split; [exact Hsplit|].
  destruct names as [|p ps] eqn:E; [reflexivity|].
  unfold clean_properties. rewrite Hsplit by done.
  clear Hsplit E. induction Hn as [|q l (Hq1 & Hq2 & _) _ IH]; [reflexivity|].
  rewrite filter_cons_True by (by rewrite Hq2).
  rewrite fmap_cons, Hq2. by f_equal.
Qed.

(** ** Dates and keys *)

Lemma strptime_Ymd_length s dt :
  strptime s fmt_Ymd = Returns dt -> 8 <= String.length s <= 10.
Proof.
  intros (ty & tm & td & -> & Hy & Hm & Hd & _)%strptime_Ymd_inv.
  destruct Hy as (c1 & c2 & c3 & c4 & _ & _ & _ & _ & ->).
  destruct Hm as [(c5 & _ & ->)|(c5 & c6 & _ & _ & ->)];
    destruct Hd as [(c7 & _ & ->)|[(c7 & c8 & _ & _ & ->)|(c8 & _ & ->)]];
    vm_compute; lia.
Qed.

(** X19.  A date field shorter than eight or longer than ten
    characters never parses: the report form answers such a start or
    end date (a timestamp, a date with a time zone, an empty field)
    with the error page and fetches nothing. *)
Theorem sales_report_date_length env start_date end_date group_by log :
  ~ (8 <= String.length start_date <= 10) \/
  ~ (8 <= String.length end_date <= 10) ->
  sales_report env start_date end_date group_by log = (Returns error_response, log).
Proof.
  intros H. apply sales_report_invalid.
  destruct (parse_range start_date end_date) as [[sd ed]|] eqn:Hp; [|reflexivity].
  apply parse_range_returns in Hp as (ds & de & Hs & He & _).
  apply strptime_Ymd_length in Hs, He. tauto.
Qed.

Lemma sales_report_date_length_witness :
  let env := mkenv (Some "https://erp.example/idoapi") (Some "Grp:Site")
               (Some "t0k3n") (fun _ => ok_json (VList [])) (fun _ => None) in
  sales_report env "2026-01-01T00:00:00" "2026-01-31" "day" [] =
    (Returns error_response, []).
Proof.
  intros env. apply (sales_report_date_length env). left. vm_compute. lia.
Defined.

Lemma strptime_valid s fmt dt :
  strptime s fmt = Returns dt ->
  valid_date (year dt) (month dt) (day dt) = true /\
  hour dt = 0 /\ minute dt = 0 /\ second dt = 0 /\ microsecond dt = 0.
Proof.
  unfold strptime.
  destruct (match_format fmt no_groups s) as [|[g rest] ?]; [discriminate|].
  destruct rest; [|discriminate].
  destruct (valid_date _ _ _) eqn:Hv; [|discriminate].
  by intros [= <-].
Qed.

Lemma days_in_month_le y m : days_in_month y m <= 31.
Proof.
  unfold days_in_month.
  do 12 (destruct m as [|m]; [try destruct (is_leap y); lia|]). lia.
Qed.

Lemma valid_date_bounds y m d :
  valid_date y m d = true -> y < 10 * 1000 /\ m < 100 /\ d < 100.
Proof.
  unfold valid_date. rewrite !andb_true_iff, !Nat.leb_le.
  intros [[[[[_ Hy] _] Hm] _] Hd].
  pose proof (days_in_month_le y m).
  assert (y <= 9 * 1000 + 999) by (etrans; [exact Hy|]; by vm_compute).
  lia.
Qed.

Lemma digit_char_inj a b : digit_char a = digit_char b -> a mod 10 = b mod 10.
Proof.
  unfold digit_char. intros H%(f_equal nat_of_ascii).
  rewrite !nat_ascii_embedding in H by lia. lia.
Qed.

Lemma four_digit_expansion a :
  a < 10 * 1000 ->
  a = 1000 * ((a / 1000) mod 10) + 100 * ((a / 100) mod 10) +
      10 * ((a / 10) mod 10) + a mod 10.
Proof.
  intros Ha.
  replace (a / 100) with (a / 10 / 10) by (by rewrite Nat.Div0.div_div).
  replace (a / 1000) with (a / 10 / 10 / 10) by (by rewrite !Nat.Div0.div_div).
  lia.
Qed.

Lemma pad4_inj a b : a < 10 * 1000 -> b < 10 * 1000 -> pad4 a = pad4 b -> a = b.
Proof.
  intros Ha Hb H. unfold pad4 in H.
  assert (H1 : digit_char (a / 1000) = digit_char (b / 1000)) by congruence.
  assert (H2 : digit_char (a / 100) = digit_char (b / 100)) by congruence.
  assert (H3 : digit_char (a / 10) = digit_char (b / 10)) by congruence.
  assert (H4 : digit_char a = digit_char b) by congruence.
  apply digit_char_inj in H1, H2, H3, H4.
  rewrite (four_digit_expansion a Ha), (four_digit_expansion b Hb).
  by rewrite H1, H2, H3, H4.
Qed.

Lemma pad2_inj a b : a < 100 -> b < 100 -> pad2 a = pad2 b -> a = b.
Proof.
  intros Ha Hb H. unfold pad2 in H.
  assert (H1 : digit_char (a / 10) = digit_char (b / 10)) by congruence.
  assert (H2 : digit_char a = digit_char b) by congruence.
  apply digit_char_inj in H1, H2. lia.
Qed.

Lemma is_digit_digit_char n : is_digit (digit_char n) = true.
Proof.
  unfold is_digit, char_in, digit_char.
  change (nat_of_ascii "0") with 48. change (nat_of_ascii "9") with 57.
  rewrite nat_ascii_embedding by lia.
  apply andb_true_iff. rewrite !Nat.leb_le. lia.
Qed.

Lemma three_digit_expansion a :
  a < 1000 ->
  a = 100 * ((a / 100) mod 10) + 10 * ((a / 10) mod 10) + a mod 10.
Proof.
  intros Ha.
  replace (a / 100) with (a / 10 / 10) by (by rewrite Nat.Div0.div_div).
  lia.
Qed.

Lemma year_text_cases y :
  (y < 10 /\ year_text y = String (digit_char y) "") \/
  (10 <= y < 100 /\ year_text y = pad2 y) \/
  (100 <= y < 1000 /\ year_text y = String (digit_char (y / 100)) (pad2 y)) \/
  (1000 <= y /\ year_text y = pad4 y).
Proof.
  unfold year_text.
  destruct (Nat.ltb_spec y 10); [by left|].
  destruct (Nat.ltb_spec y 100); [right; by left|].
  destruct (Nat.ltb_spec y 1000); [right; right; by left|].
  right. right. by right.
Qed.

Lemma year_text_inj a b :
  a < 10 * 1000 -> b < 10 * 1000 -> year_text a = year_text b -> a = b.
Proof.
  intros Ha Hb.
  destruct (year_text_cases a) as [[Ha' ->]|[[Ha' ->]|[[Ha' ->]|[Ha' ->]]]];
    destruct (year_text_cases b) as [[Hb' ->]|[[Hb' ->]|[[Hb' ->]|[Hb' ->]]]];
    unfold pad4, pad2; intros H; try congruence.
  - assert (H1 : digit_char a = digit_char b) by congruence.
    apply digit_char_inj in H1. lia.
  - apply pad2_inj; [lia..|]. unfold pad2. congruence.
  - assert (H1 : digit_char (a / 100) = digit_char (b / 100)) by congruence.
    assert (H2 : digit_char (a / 10) = digit_char (b / 10)) by congruence.
    assert (H3 : digit_char a = digit_char b) by congruence.
    apply digit_char_inj in H1, H2, H3.
    rewrite (three_digit_expansion a), (three_digit_expansion b) by lia.
    by rewrite H1, H2, H3.
  - apply pad4_inj; [done..|]. unfold pad4. congruence.
Qed.

Lemma all_digits_year_text y : all_digits (year_text y) = true.
Proof.
  destruct (year_text_cases y) as [[_ ->]|[[_ ->]|[[_ ->]|[_ ->]]]];
    unfold pad4, pad2; cbn [all_digits]; by rewrite !is_digit_digit_char.
Qed.

(** A run of digits ends at the first hyphen. *)
Lemma split_at_hyphen t1 t2 r1 r2 :
  all_digits t1 = true -> all_digits t2 = true ->
  t1 +:+ String "-" r1 = t2 +:+ String "-" r2 -> t1 = t2 /\ r1 = r2.
Proof.
  revert t2. induction t1 as [|c1 t1 IH]; intros [|c2 t2] H1 H2 H.
  - by injection H as ->.
  - cbn [all_digits] in H2. apply andb_true_iff in H2 as [Hc _].
    change (String "-" r1 = String c2 (t2 +:+ String "-" r2)) in H.
    injection H as <- _. discriminate.
  - cbn [all_digits] in H1. apply andb_true_iff in H1 as [Hc _].
    change (String c1 (t1 +:+ String "-" r1) = String "-" r2) in H.
    injection H as -> _. discriminate.
  - cbn [all_digits] in H1, H2.
    apply andb_true_iff in H1 as [_ H1], H2 as [_ H2].
    change (String c1 (t1 +:+ String "-" r1) = String c2 (t2 +:+ String "-" r2)) in H.
    injection H as -> H. by destruct (IH _ H1 H2 H) as [-> ->].
Qed.

Lemma month_day_key_inj m1 d1 m2 d2 :
  pad2 m1 +:+ "-" +:+ pad2 d1 +:+ "" = pad2 m2 +:+ "-" +:+ pad2 d2 +:+ "" ->
  pad2 m1 = pad2 m2 /\ pad2 d1 = pad2 d2.
Proof. unfold pad2. cbv [String.append]. intros H. split; congruence. Qed.

(** X20.  Buckets do not collide.  Two records whose dates parse fall
    into the same bucket exactly when they have the same date for
    [group_by] "day", the same year and month for "month", and the
    same year for any other value, however the two dates were
    written. *)
Theorem group_key_same_period group_by s1 s2 dt1 dt2 :
  strptime s1 fmt_Ymd = Returns dt1 ->
  strptime s2 fmt_Ymd = Returns dt2 ->
  (group_by = "day" ->
     (group_key group_by dt1 = group_key group_by dt2 <-> dt1 = dt2)) /\
  (group_by = "month" ->
     (group_key group_by dt1 = group_key group_by dt2 <->
      year dt1 = year dt2 /\ month dt1 = month dt2)) /\
  (group_by <> "day" -> group_by <> "month" ->
     (group_key group_by dt1 = group_key group_by dt2 <-> year dt1 = year dt2)).
Proof.
  intros (Hv1 & ? & ? & ? & ?)%strptime_valid (Hv2 & ? & ? & ? & ?)%strptime_valid.
  apply valid_date_bounds in Hv1 as (? & ? & ?), Hv2 as (? & ? & ?).
  destruct dt1 as [y1 m1 d1 ? ? ? ?], dt2 as [y2 m2 d2 ? ? ? ?].
  cbn [year month day hour minute second microsecond] in *. subst.
  split; [|split].
  - intros ->. change (group_key "day" ?dt) with (strftime dt fmt_Ymd).
    unfold fmt_Ymd. cbn [strftime strftime_item year month day]. split.
    + intros (Hy & (Hm & Hd)%month_day_key_inj)%split_at_hyphen;
        [|apply all_digits_year_text..].
      apply year_text_inj in Hy; [|done..]. apply pad2_inj in Hm, Hd; [|done..].
      by subst.
    + by intros [= -> -> ->].
  - intros ->. change (group_key "month" ?dt) with (strftime dt fmt_Ym).
    unfold fmt_Ym. cbn [strftime strftime_item year month day]. split.
    + intros (Hy & Hm)%split_at_hyphen; [|apply all_digits_year_text..].
      rewrite !append_empty in Hm.
      apply year_text_inj in Hy; [|done..]. apply pad2_inj in Hm; [|done..]. done.
    + by intros [-> ->].
  - intros Hd Hm. unfold group_key.
    rewrite (proj2 (String.eqb_neq _ _) Hd), (proj2 (String.eqb_neq _ _) Hm).
    unfold fmt_Y. cbn [strftime strftime_item year month day].
    rewrite !append_empty. split.
    + intros Hy. by apply year_text_inj in Hy.
    + by intros ->.
Qed.

Lemma group_key_same_period_witness :
  let dt1 := mkdatetime 2026 1 5 0 0 0 0 in
  let dt2 := mkdatetime 2026 1 5 0 0 0 0 in
  ("day" = "day" ->
     (group_key "day" dt1 = group_key "day" dt2 <-> dt1 = dt2)) /\
  ("day" = "month" ->
     (group_key "day" dt1 = group_key "day" dt2 <->
      year dt1 = year dt2 /\ month dt1 = month dt2)) /\
  ("day" <> "day" -> "day" <> "month" ->
     (group_key "day" dt1 = group_key "day" dt2 <-> year dt1 = year dt2)).
Proof.
  intros dt1 dt2.
  apply (group_key_same_period "day" "2026-1-5" "2026-01-05" dt1 dt2);
    vm_compute; reflexivity.
Defined.












